(** * Linux bridge ioctl stubs: ocaml/netdev/bridge_stubs.c

    A shallow embedding of the four OCaml primitives
    [stub_bridge_add], [stub_bridge_del], [stub_bridge_intf_add] and
    [stub_bridge_intf_del], and of the C library calls they are made of,
    over an abstract operating system. *)

From Stdlib Require Import ZArith Lia.
From Stdlib Require Import Strings.String Strings.Byte.
From stdpp Require Import base tactics option list.

Local Open Scope Z_scope.

(** ** C data *)

(** [char] is a byte; ['\000'] is [x00]. *)
Definition NUL : byte := x00.

Definition is_NUL (c : byte) : bool := Byte.eqb c NUL.

(** <net/if.h> *)
Definition IFNAMSIZ : nat := 16.

(** [int] is 32 bits wide, two's complement.  [to_int] is the conversion of
    an integer of another type ([unsigned int], [long]) to [int]: the low 32
    bits, read as a signed number. *)
Definition INT_MAX : Z := 2 ^ 31 - 1.
Definition UINT_MAX : Z := 2 ^ 32 - 1.

Definition to_int (z : Z) : Z := (z + 2 ^ 31) mod 2 ^ 32 - 2 ^ 31.

(** ** OCaml values at the C boundary

    An OCaml [int] is given by the integer it stands for and an OCaml
    [string] by its bytes.  [Int_val] is [(int) Long_val(v)].  [String_val]
    is the address of the first byte; the runtime keeps a zero byte after
    the last one, so a C function reading through the pointer sees the bytes
    up to the first zero byte, or all of them when there is none. *)
Definition Int_val (v : Z) : Z := to_int v.

Definition String_val (v : list byte) : list byte := v.

Definition Val_unit : unit := tt.

(** ** <string.h> over byte lists

    A list read as a C string ends at its first zero byte, or at its end. *)
Fixpoint strlen (s : list byte) : nat :=
  match s with
  | [] => O
  | c :: s' => if is_NUL c then O else S (strlen s')
  end.

(** [memset(dst, c, n)]: the first [n] bytes of [dst] become [c]. *)
Definition memset (dst : list byte) (c : byte) (n : nat) : list byte :=
  replicate n c ++ drop n dst.

(** The [n] bytes that [strncpy(_, src, n)] writes: the bytes of [src] up to
    its terminator or up to [n] of them, whichever comes first, and zero
    bytes for the rest. *)
Fixpoint strncpy_bytes (src : list byte) (n : nat) {struct n} : list byte :=
  match n with
  | O => []
  | S n' =>
      match src with
      | [] => replicate n NUL
      | c :: src' =>
          if is_NUL c then replicate n NUL else c :: strncpy_bytes src' n'
      end
  end.

Definition strncpy (dst src : list byte) (n : nat) : list byte :=
  strncpy_bytes src n ++ drop n dst.

(** ** <net/if.h>: the interface request

    Of [struct ifreq] the stubs touch the name array and the [ifr_ifindex]
    member of the union. *)
Record ifreq : Type := mk_ifreq {
  ifr_name : list byte;
  ifr_ifindex : Z
}.

Definition set_ifr_name (ifr : ifreq) (nm : list byte) : ifreq :=
  {| ifr_name := nm; ifr_ifindex := ifr_ifindex ifr |}.

Definition set_ifr_ifindex (ifr : ifreq) (i : Z) : ifreq :=
  {| ifr_name := ifr_name ifr; ifr_ifindex := i |}.

(** ** <linux/sockios.h>: the bridge requests *)
Inductive ioctl_request : Type :=
| SIOCBRADDBR
| SIOCBRDELBR
| SIOCBRADDIF
| SIOCBRDELIF.

Definition request_code (r : ioctl_request) : Z :=
  match r with
  | SIOCBRADDBR => 0x89a0
  | SIOCBRDELBR => 0x89a1
  | SIOCBRADDIF => 0x89a2
  | SIOCBRDELIF => 0x89a3
  end.

(** The third argument of [ioctl] in this file: a pointer to the bytes of a
    name, or a pointer to an interface request. *)
Inductive ioctl_arg : Type :=
| Arg_string (p : list byte)
| Arg_ifreq (ifr : ifreq).

(** What a stub asks of the operating system, with the value that came
    back. *)
Inductive syscall : Type :=
| Sys_if_nametoindex (ifname : list byte) (index : Z)
| Sys_ioctl (fd : Z) (request : ioctl_request) (argp : ioctl_arg) (result : Z).

Definition is_ioctl (c : syscall) : bool :=
  match c with
  | Sys_ioctl _ _ _ _ => true
  | Sys_if_nametoindex _ _ => false
  end.

Definition is_resolution (c : syscall) : bool :=
  match c with
  | Sys_if_nametoindex _ _ => true
  | Sys_ioctl _ _ _ _ => false
  end.

(** The interface requests among a list of calls. *)
Fixpoint records_sent (l : list syscall) : list ifreq :=
  match l with
  | [] => []
  | Sys_ioctl _ _ (Arg_ifreq r) _ :: l' => r :: records_sent l'
  | _ :: l' => records_sent l'
  end.

(** ** The operating system

    The kernel and the C library are not part of the stubs.  A [System]
    gives the state of the kernel, the answer of a name lookup, the effect
    of an [ioctl], and [strerror].  A call answers with its return value
    and, when it sets [errno], the new [errno]. *)
Class System : Type := {
  kstate : Type;
  sys_if_nametoindex : kstate -> list byte -> Z * option Z;
  sys_ioctl : kstate -> Z -> ioctl_request -> ioctl_arg -> Z * option Z * kstate;
  strerror : Z -> string
}.

(** ** OCaml exceptions raised from C *)
Inductive caml_exn : Type :=
| Failure (msg : string)
| IoctlError (label : string) (text : string).

Inductive outcome (A : Type) : Type :=
| Returns (a : A)
| Raises (e : caml_exn).

Arguments Returns {A} a.
Arguments Raises {A} e.

Section Stubs.

Context {Sys : System}.

(** What a call can read and change: the kernel, [errno], and the record of
    the calls made so far (oldest first). *)
Record world : Type := mk_world {
  kernel : kstate;
  errno : Z;
  calls : list syscall
}.

(** A C function that may raise an OCaml exception. *)
Definition M (A : Type) : Type := world -> outcome A * world.

Definition ret {A : Type} (a : A) : M A := fun w => (Returns a, w).

Definition bind {A B : Type} (m : M A) (k : A -> M B) : M B :=
  fun w =>
    match m w with
    | (Returns a, w') => k a w'
    | (Raises e, w') => (Raises e, w')
    end.

Notation "x <- m ;; k" := (bind m (fun x => k))
  (at level 100, m at next level, right associativity).
Notation "m ;; k" := (bind m (fun _ => k))
  (at level 100, right associativity).

Definition set_errno (e : option Z) (old : Z) : Z :=
  match e with
  | Some v => v
  | None => old
  end.

(** [caml_failwith] does not return. *)
Definition caml_failwith {A : Type} (msg : string) : M A :=
  fun w => (Raises (Failure msg), w).

(** [if_nametoindex(3)] looks the name up and changes nothing in the
    kernel. *)
Definition if_nametoindex (ifname : list byte) : M Z :=
  fun w =>
    let '(idx, e) := sys_if_nametoindex (kernel w) ifname in
    (Returns idx,
     {| kernel := kernel w;
        errno := set_errno e (errno w);
        calls := calls w ++ [Sys_if_nametoindex ifname idx] |}).

Definition ioctl (fd : Z) (request : ioctl_request) (argp : ioctl_arg) : M Z :=
  fun w =>
    let '(r, e, k') := sys_ioctl (kernel w) fd request argp in
    (Returns r,
     {| kernel := k';
        errno := set_errno e (errno w);
        calls := calls w ++ [Sys_ioctl fd request argp r] |}).

(** Modelled from the spec: the macro [CHECK_IOCTL] of netdev.h, which is
    not among the sources.  When the kernel request returned a failure
    indication (a negative value), an [IoctlError] is raised that carries
    the label of the operation and the description of the error the
    operating system reported; otherwise nothing happens. *)
Definition CHECK_IOCTL (err : Z) (S : string) : M unit :=
  fun w =>
    if err <? 0
    then (Raises (IoctlError S (strerror (errno w))), w)
    else (Returns tt, w).

(** The calls that running [m] from [w] adds to the record. *)
Definition issued {A : Type} (m : M A) (w : world) : list syscall :=
  drop (length (calls w)) (calls (m w).2).

(** The contents of the automatic variable [ifr] when the function is
    entered: nothing is known about them. *)
Variable ifr_auto : ifreq.

(** *** The four primitives *)

Definition stub_bridge_add (fd : Z) (name : list byte) : M unit :=
  err <- ioctl (Int_val fd) SIOCBRADDBR (Arg_string (String_val name)) ;;
  CHECK_IOCTL err "bridge add" ;;
  ret Val_unit.

Definition stub_bridge_del (fd : Z) (name : list byte) : M unit :=
  err <- ioctl (Int_val fd) SIOCBRDELBR (Arg_string (String_val name)) ;;
  CHECK_IOCTL err "bridge del" ;;
  ret Val_unit.

Definition stub_bridge_intf_add (fd : Z) (name intf : list byte) : M unit :=
  let ifr := ifr_auto in
  idx <- if_nametoindex (String_val intf) ;;
  let ifindex := to_int idx in
  (if ifindex =? 0 then caml_failwith "Device_not_found" else ret tt) ;;
  let ifr := set_ifr_name ifr (memset (ifr_name ifr) NUL IFNAMSIZ) in
  let ifr := set_ifr_name ifr (strncpy (ifr_name ifr) (String_val name) IFNAMSIZ) in
  let ifr := set_ifr_ifindex ifr ifindex in
  err <- ioctl (Int_val fd) SIOCBRADDIF (Arg_ifreq ifr) ;;
  CHECK_IOCTL err "bridge intf add" ;;
  ret Val_unit.

Definition stub_bridge_intf_del (fd : Z) (name intf : list byte) : M unit :=
  let ifr := ifr_auto in
  idx <- if_nametoindex (String_val intf) ;;
  let ifindex := to_int idx in
  (if ifindex =? 0 then caml_failwith "Device_not_found" else ret tt) ;;
  let ifr := set_ifr_name ifr (memset (ifr_name ifr) NUL IFNAMSIZ) in
  let ifr := set_ifr_name ifr (strncpy (ifr_name ifr) (String_val name) IFNAMSIZ) in
  let ifr := set_ifr_ifindex ifr ifindex in
  err <- ioctl (Int_val fd) SIOCBRDELIF (Arg_ifreq ifr) ;;
  CHECK_IOCTL err "bridge intf del" ;;
  ret Val_unit.

End Stubs.

(** The record that lines 46 to 48 and 66 to 68 of the source leave in
    [ifr], from its contents on entry, the bridge name and the index. *)
Definition request_record (ifr : ifreq) (name : list byte) (ifindex : Z)
    : ifreq :=
  {| ifr_name :=
       strncpy (memset (ifr_name ifr) NUL IFNAMSIZ) (String_val name) IFNAMSIZ;
     ifr_ifindex := ifindex |}.

(** ** The operations as the interface contract words them

    Attach and detach: resolve the interface name; no match (index zero) is
    [Device_not_found]; otherwise send one request whose record holds the
    bridge name, cut to [IFNAMSIZ] bytes and padded with zero bytes, and the
    index; a kernel failure is an [IoctlError] under the label of the
    operation.  These are compared with the stubs below. *)
Definition contract_name_field (name : list byte) : list byte :=
  take IFNAMSIZ (take (strlen name) name)
    ++ replicate (IFNAMSIZ - strlen name) NUL.

(** One kernel request and its check. *)
Definition contract_request `{Sys : System}
    (request : ioctl_request) (label : string)
    (fd : Z) (argp : ioctl_arg) (w : world) : outcome unit * world :=
  let '(r, e, k') := sys_ioctl (kernel w) fd request argp in
  let w' := {| kernel := k';
               errno := set_errno e (errno w);
               calls := calls w ++ [Sys_ioctl fd request argp r] |} in
  if r <? 0 then (Raises (IoctlError label (strerror (errno w'))), w')
  else (Returns tt, w').

(** Create and destroy: the one request, with the name as it is. *)
Definition contract_bridge_request `{Sys : System}
    (request : ioctl_request) (label : string)
    (fd : Z) (name : list byte) : world -> outcome unit * world :=
  contract_request request label (to_int fd) (Arg_string name).

(** Resolve, give up on index zero, otherwise send the record made for the
    index. *)
Definition resolve_then_request `{Sys : System}
    (request : ioctl_request) (label : string)
    (fd : Z) (intf : list byte) (record : Z -> ifreq) (w : world)
    : outcome unit * world :=
  let '(idx, e1) := sys_if_nametoindex (kernel w) intf in
  let w1 := {| kernel := kernel w;
               errno := set_errno e1 (errno w);
               calls := calls w ++ [Sys_if_nametoindex intf idx] |} in
  if to_int idx =? 0 then (Raises (Failure "Device_not_found"), w1)
  else
    contract_request request label (to_int fd) (Arg_ifreq (record (to_int idx))) w1.

Definition contract_intf_request `{Sys : System}
    (request : ioctl_request) (label : string)
    (fd : Z) (name intf : list byte) : world -> outcome unit * world :=
  resolve_then_request request label fd intf
    (fun i => {| ifr_name := contract_name_field name; ifr_ifindex := i |}).

(** ** Outcomes of a call, as the claims speak of them *)

(** The call fails on a kernel request that failed, under [label] and with
    the text of [errno]; it returns exactly when a kernel request was made
    and did not fail; and it raises an [IoctlError] in no other way. *)
Definition checked_by_ioctl `{Sys : System}
    (label : string) (m : M unit) (w : world) : Prop :=
  (forall fd request argp r,
      Sys_ioctl fd request argp r ∈ issued m w -> r < 0 ->
      (m w).1 = Raises (IoctlError label (strerror (errno (m w).2))))
  /\ ((m w).1 = Returns tt <->
      exists fd request argp r,
        Sys_ioctl fd request argp r ∈ issued m w /\ 0 <= r)
  /\ (forall l t,
        (m w).1 = Raises (IoctlError l t) ->
        l = label
        /\ exists fd request argp r,
             Sys_ioctl fd request argp r ∈ issued m w /\ r < 0).

(** The four operations on one descriptor and one pair of names. *)
Definition is_operation `{Sys : System}
    (ifr : ifreq) (fd : Z) (name intf : list byte) (m : M unit) : Prop :=
  m = stub_bridge_add fd name
  \/ m = stub_bridge_del fd name
  \/ m = stub_bridge_intf_add ifr fd name intf
  \/ m = stub_bridge_intf_del ifr fd name intf.

(** A call that takes the descriptor by value and reads the names: a lookup
    of [intf], or an [ioctl] on the descriptor whose argument is the bridge
    name or a record of the stub's own. *)
Definition borrows (fd : Z) (name intf : list byte) (c : syscall) : Prop :=
  match c with
  | Sys_if_nametoindex p _ => p = intf
  | Sys_ioctl fd' _ argp _ =>
      fd' = Int_val fd
      /\ (argp = Arg_string name \/ exists rec, argp = Arg_ifreq rec)
  end.

(** ** A small kernel

    One concrete [System], used to run the stubs: net devices with their
    indices, bridges with their ports, and the sockets the process holds. *)
Module RefKernel.

#[local] Instance byte_eq : EqDecision byte := Byte.byte_eq_dec.

Definition EBADF : Z := 9.
Definition EEXIST : Z := 17.
Definition ENXIO : Z := 6.
Definition ENODEV : Z := 19.
Definition EBUSY : Z := 16.
Definition EINVAL : Z := 22.

Record state : Type := mk_state {
  devs : list (list byte * Z);
  bridges : list (list byte * list Z);
  socks : list Z;
  next_index : Z
}.

Definition same_name (a b : list byte) : bool := bool_decide (a = b).

Fixpoint assoc {V : Type} (n : list byte) (l : list (list byte * V)) : option V :=
  match l with
  | [] => None
  | (m, v) :: l' => if same_name n m then Some v else assoc n l'
  end.

Fixpoint remove_key {V : Type} (n : list byte) (l : list (list byte * V))
    : list (list byte * V) :=
  match l with
  | [] => []
  | (m, v) :: l' =>
      if same_name n m then remove_key n l' else (m, v) :: remove_key n l'
  end.

(** The kernel copies [IFNAMSIZ] bytes of a name, forces the last one to
    zero and reads the result as a C string. *)
Definition kname (p : list byte) : list byte :=
  let buf := take (IFNAMSIZ - 1) p in take (strlen buf) buf.

Definition name_char_ok (c : byte) : bool :=
  negb (is_NUL c) && negb (Byte.eqb c "/") && negb (Byte.eqb c " ").

Definition valid_name (n : list byte) : bool :=
  match n with
  | [] => false
  | _ => (length n <? IFNAMSIZ)%nat && forallb name_char_ok n
  end.

Definition has_sock (k : state) (fd : Z) : bool :=
  bool_decide (fd ∈ socks k).

Definition is_port (k : state) (i : Z) : bool :=
  existsb (fun b => bool_decide (i ∈ b.2)) (bridges k).

Definition has_index (k : state) (i : Z) : bool :=
  existsb (fun d => d.2 =? i) (devs k).

Definition set_ports (k : state) (br : list byte) (ports : list Z) : state :=
  {| devs := devs k;
     bridges := (br, ports) :: remove_key br (bridges k);
     socks := socks k;
     next_index := next_index k |}.

Definition nametoindex (k : state) (p : list byte) : Z * option Z :=
  match assoc (take (strlen p) p) (devs k) with
  | Some i => (i, None)
  | None => (0, Some ENODEV)
  end.

Definition do_ioctl (k : state) (fd : Z) (request : ioctl_request)
    (argp : ioctl_arg) : Z * option Z * state :=
  if negb (has_sock k fd) then (-1, Some EBADF, k)
  else
    match request, argp with
    | SIOCBRADDBR, Arg_string p =>
        let n := kname p in
        if negb (valid_name n) then (-1, Some EINVAL, k)
        else
          match assoc n (devs k) with
          | Some _ => (-1, Some EEXIST, k)
          | None =>
              (0, None,
               {| devs := (n, next_index k) :: devs k;
                  bridges := (n, []) :: bridges k;
                  socks := socks k;
                  next_index := next_index k + 1 |})
          end
    | SIOCBRDELBR, Arg_string p =>
        let n := kname p in
        match assoc n (bridges k) with
        | None => (-1, Some ENXIO, k)
        | Some [] =>
            (0, None,
             {| devs := remove_key n (devs k);
                bridges := remove_key n (bridges k);
                socks := socks k;
                next_index := next_index k |})
        | Some (_ :: _) => (-1, Some EBUSY, k)
        end
    | SIOCBRADDIF, Arg_ifreq r =>
        let n := kname (ifr_name r) in
        match assoc n (bridges k) with
        | None => (-1, Some ENODEV, k)
        | Some ports =>
            if negb (has_index k (ifr_ifindex r)) then (-1, Some EINVAL, k)
            else if is_port k (ifr_ifindex r) then (-1, Some EBUSY, k)
            else (0, None, set_ports k n (ports ++ [ifr_ifindex r]))
        end
    | SIOCBRDELIF, Arg_ifreq r =>
        let n := kname (ifr_name r) in
        match assoc n (bridges k) with
        | None => (-1, Some ENODEV, k)
        | Some ports =>
            if bool_decide (ifr_ifindex r ∈ ports)
            then (0, None,
                  set_ports k n (filter (fun i => i ≠ ifr_ifindex r) ports))
            else (-1, Some EINVAL, k)
        end
    | _, _ => (-1, Some EINVAL, k)
    end.

Definition error_text (e : Z) : string :=
  if e =? EBADF then "Bad file descriptor"
  else if e =? EEXIST then "File exists"
  else if e =? ENXIO then "No such device or address"
  else if e =? ENODEV then "No such device"
  else if e =? EBUSY then "Device or resource busy"
  else if e =? EINVAL then "Invalid argument"
  else "Unknown error".

Definition system : System :=
  {| kstate := state;
     sys_if_nametoindex := nametoindex;
     sys_ioctl := do_ioctl;
     strerror := error_text |}.

Definition bridge_ports (k : state) (n : list byte) : option (list Z) :=
  assoc n (bridges k).

Definition unused (k : state) (n : list byte) : Prop := assoc n (devs k) = None.

Definition sock_open (k : state) (d : Z) : Prop := has_sock k d = true.

Definition well_formed (n : list byte) : Prop := valid_name n = true.

(** A host with the loopback device, one dummy interface, and one control
    socket open on descriptor 3. *)
Definition host : state :=
  {| devs := [(list_byte_of_string "lo", 1);
              (list_byte_of_string "eth-test0", 2)];
     bridges := [];
     socks := [3];
     next_index := 3 |}.

Definition boot : @world system := @mk_world system host 0 [].

Definition stack_garbage : ifreq :=
  {| ifr_name := replicate IFNAMSIZ xff; ifr_ifindex := -559038737 |}.

Definition testbr0 : list byte := list_byte_of_string "testbr0".
Definition eth_test0 : list byte := list_byte_of_string "eth-test0".
Definition nosuch_iface : list byte := list_byte_of_string "nosuch-iface".
Definition long_name : list byte := list_byte_of_string "bridge-0123456789".

(** The host after bridge "testbr0" has been created. *)
Definition bridged : @world system :=
  (stub_bridge_add (Sys := system) 3 testbr0 boot).2.

(** The interface of a record can be made a port of the bridge it names,
    and is a port of it. *)
Definition attachable (k : state) (rec : ifreq) : Prop :=
  (exists ports, assoc (kname (ifr_name rec)) (bridges k) = Some ports)
  /\ has_index k (ifr_ifindex rec) = true
  /\ is_port k (ifr_ifindex rec) = false.

Definition attached (k : state) (rec : ifreq) : Prop :=
  exists ports,
    assoc (kname (ifr_name rec)) (bridges k) = Some ports
    /\ ifr_ifindex rec ∈ ports.

(** Other contents the automatic variable may have on entry. *)
Definition stack_zeros : ifreq :=
  {| ifr_name := replicate IFNAMSIZ x00; ifr_ifindex := 0 |}.

Definition long_name_cut : list byte := list_byte_of_string "bridge-012345678".
Definition eth_test0_alias : list byte := eth_test0 ++ [x00] ++ testbr0.

Definition a_zero_b : list byte :=
  list_byte_of_string "a" ++ [x00] ++ list_byte_of_string "b".

End RefKernel.

(** ** The stubs over the memory and the descriptors of the caller

    The same four primitives, now taking the OCaml strings by reference:
    a string value is the number of its block in the heap, [String_val] is
    a pointer to the bytes of the block, and [memset] and [strncpy] write
    through the pointer they are given, be it into a block or into the name
    array of the automatic variable [ifr].  The process also has its table
    of open descriptors, which [close] changes.  Calls into the operating
    system are those of the first model, made on the bytes read. *)
Module Owned.

Section Process.

Context {Sys : System}.

(** A [char *]: into an OCaml string of the caller, or [ifr.ifr_name]. *)
Inductive ptr : Type :=
| Ptr_block (b : nat)
| Ptr_ifr_name.

Record process : Type := mk_process {
  os : world;
  heap : list (list byte);
  fds : list Z;
  ifr : ifreq
}.

Definition P (A : Type) : Type := process -> outcome A * process.

Definition ret {A : Type} (a : A) : P A := fun p => (Returns a, p).

Definition bind {A B : Type} (m : P A) (k : A -> P B) : P B :=
  fun p =>
    match m p with
    | (Returns a, p') => k a p'
    | (Raises e, p') => (Raises e, p')
    end.

Notation "x <- m ;; k" := (bind m (fun x => k))
  (at level 100, m at next level, right associativity).
Notation "m ;; k" := (bind m (fun _ => k))
  (at level 100, right associativity).

(** A call of the first model: it sees and changes the operating system
    only. *)
Definition in_os {A : Type} (m : M A) : P A :=
  fun p =>
    let '(o, w) := m (os p) in
    (o, {| os := w; heap := heap p; fds := fds p; ifr := ifr p |}).

(** The bytes a pointer leads to; a block that does not exist has none. *)
Definition bytes_at (p : process) (q : ptr) : list byte :=
  match q with
  | Ptr_block b => default [] (heap p !! b)
  | Ptr_ifr_name => ifr_name (ifr p)
  end.

Definition store (q : ptr) (bs : list byte) : P unit :=
  fun p =>
    (Returns tt,
     match q with
     | Ptr_block b =>
         {| os := os p; heap := <[b := bs]> (heap p); fds := fds p;
            ifr := ifr p |}
     | Ptr_ifr_name =>
         {| os := os p; heap := heap p; fds := fds p;
            ifr := set_ifr_name (ifr p) bs |}
     end).

Definition memset (s : ptr) (c : byte) (n : nat) : P unit :=
  fun p => store s (memset (bytes_at p s) c n) p.

Definition strncpy (dst src : ptr) (n : nat) : P unit :=
  fun p => store dst (strncpy (bytes_at p dst) (bytes_at p src) n) p.

(** [ifr.ifr_ifindex = i]. *)
Definition assign_ifindex (i : Z) : P unit :=
  fun p =>
    (Returns tt,
     {| os := os p; heap := heap p; fds := fds p;
        ifr := set_ifr_ifindex (ifr p) i |}).

Definition if_nametoindex (ifname : ptr) : P Z :=
  fun p => in_os (if_nametoindex (bytes_at p ifname)) p.

(** The third argument of [ioctl]: a [char *], or [&ifr]. *)
Inductive argp : Type :=
| Argp_string (q : ptr)
| Argp_ifr.

Definition ioctl (fd : Z) (request : ioctl_request) (a : argp) : P Z :=
  fun p =>
    in_os (ioctl fd request
             match a with
             | Argp_string q => Arg_string (bytes_at p q)
             | Argp_ifr => Arg_ifreq (ifr p)
             end) p.

Definition caml_failwith {A : Type} (msg : string) : P A :=
  in_os (caml_failwith msg).

Definition CHECK_IOCTL (err : Z) (S : string) : P unit :=
  in_os (CHECK_IOCTL err S).

(** [close(2)], which no stub calls: an open descriptor leaves the table. *)
Definition close (fd : Z) : P Z :=
  fun p =>
    if bool_decide (fd ∈ fds p)
    then (Returns 0,
          {| os := os p; heap := heap p;
             fds := filter (fun d => d ≠ fd) (fds p); ifr := ifr p |})
    else (Returns (-1), p).

Definition String_val (v : nat) : ptr := Ptr_block v.

Definition stub_bridge_add (fd : Z) (name : nat) : P unit :=
  err <- ioctl (Int_val fd) SIOCBRADDBR (Argp_string (String_val name)) ;;
  CHECK_IOCTL err "bridge add" ;;
  ret Val_unit.

Definition stub_bridge_del (fd : Z) (name : nat) : P unit :=
  err <- ioctl (Int_val fd) SIOCBRDELBR (Argp_string (String_val name)) ;;
  CHECK_IOCTL err "bridge del" ;;
  ret Val_unit.

Definition stub_bridge_intf_add (fd : Z) (name intf : nat) : P unit :=
  idx <- if_nametoindex (String_val intf) ;;
  let ifindex := to_int idx in
  (if ifindex =? 0 then caml_failwith "Device_not_found" else ret tt) ;;
  memset Ptr_ifr_name NUL IFNAMSIZ ;;
  strncpy Ptr_ifr_name (String_val name) IFNAMSIZ ;;
  assign_ifindex ifindex ;;
  err <- ioctl (Int_val fd) SIOCBRADDIF Argp_ifr ;;
  CHECK_IOCTL err "bridge intf add" ;;
  ret Val_unit.

Definition stub_bridge_intf_del (fd : Z) (name intf : nat) : P unit :=
  idx <- if_nametoindex (String_val intf) ;;
  let ifindex := to_int idx in
  (if ifindex =? 0 then caml_failwith "Device_not_found" else ret tt) ;;
  memset Ptr_ifr_name NUL IFNAMSIZ ;;
  strncpy Ptr_ifr_name (String_val name) IFNAMSIZ ;;
  assign_ifindex ifindex ;;
  err <- ioctl (Int_val fd) SIOCBRDELIF Argp_ifr ;;
  CHECK_IOCTL err "bridge intf del" ;;
  ret Val_unit.

Definition is_operation (fd : Z) (name intf : nat) (m : P unit) : Prop :=
  m = stub_bridge_add fd name
  \/ m = stub_bridge_del fd name
  \/ m = stub_bridge_intf_add fd name intf
  \/ m = stub_bridge_intf_del fd name intf.

(** The calls into the operating system that running [m] from [p] adds. *)
Definition issued (m : P unit) (p : process) : list syscall :=
  drop (length (calls (os p))) (calls (os (m p).2)).

End Process.

(** A process on the small kernel: the strings "testbr0" and "eth-test0"
    in blocks 0 and 1, descriptor 3 open. *)
Definition home : @process RefKernel.system :=
  @mk_process RefKernel.system RefKernel.boot
    [RefKernel.testbr0; RefKernel.eth_test0] [3] RefKernel.stack_garbage.

End Owned.

(** * Properties *)

(** ** Conversion to [int] *)


Lemma to_int_id (z : Z) : - 2 ^ 31 <= z <= INT_MAX -> to_int z = z.
Proof.
  unfold to_int, INT_MAX. intros Hz.
  rewrite Z.mod_small by lia. lia.
Qed.

Lemma to_int_same_bits (z : Z) : to_int z mod 2 ^ 32 = z mod 2 ^ 32.
Proof.
  unfold to_int.
  rewrite Zminus_mod, Zmod_mod, <- Zminus_mod.
  f_equal. lia.
Qed.

Lemma to_int_0 : to_int 0 = 0.
Proof. reflexivity. Qed.

Lemma to_int_unsigned_nonzero (z : Z) :
  0 < z <= UINT_MAX -> to_int z <> 0.
Proof.
  unfold UINT_MAX. intros Hz E.
  pose proof (to_int_same_bits z) as Hb. rewrite E in Hb.
  rewrite (Z.mod_small z) in Hb by lia.
  rewrite Z.mod_0_l in Hb by lia. lia.
Qed.

(** The four requests have four codes. *)
Lemma request_code_inj (r r' : ioctl_request) :
  request_code r = request_code r' -> r = r'.
Proof. by destruct r, r'. Qed.

(** ** C strings *)

Lemma is_NUL_true (c : byte) : is_NUL c = true <-> c = NUL.
Proof.
  unfold is_NUL. split.
  - apply Byte.byte_dec_bl.
  - apply Byte.byte_dec_lb.
Qed.

Lemma is_NUL_false (c : byte) : is_NUL c = false <-> c <> NUL.
Proof.
  rewrite <- is_NUL_true. destruct (is_NUL c); split; congruence.
Qed.

Lemma strlen_le_length (s : list byte) : (strlen s <= length s)%nat.
Proof.
  induction s as [|c s IH]; simpl; [lia|].
  destruct (is_NUL c); simpl; lia.
Qed.

(** A name free of zero bytes is as long for C as for OCaml. *)
Lemma strlen_no_NUL (s : list byte) : NUL ∉ s -> strlen s = length s.
Proof.
  induction s as [|c s IH]; simpl; [done|].
  intros Hn. apply not_elem_of_cons in Hn as [Hc Hs].
  destruct (is_NUL c) eqn:E.
  - apply is_NUL_true in E. congruence.
  - f_equal. by apply IH.
Qed.


Lemma length_strncpy_bytes (src : list byte) (n : nat) :
  length (strncpy_bytes src n) = n.
Proof.
  revert src. induction n as [|n IH]; intros src; [done|].
  destruct src as [|c src]; simpl.
  - by rewrite length_replicate.
  - destruct (is_NUL c); simpl; [by rewrite length_replicate|].
    by rewrite IH.
Qed.

(** What the bounded copy writes, in one formula: the string, cut to [n]
    bytes, then zero bytes up to [n]. *)
Lemma strncpy_bytes_spec (src : list byte) (n : nat) :
  strncpy_bytes src n
  = take n (take (strlen src) src) ++ replicate (n - strlen src) NUL.
Proof.
  revert src. induction n as [|n IH]; intros src; [by rewrite take_0|].
  destruct src as [|c src]; [done|].
  simpl. destruct (is_NUL c) eqn:E; [done|].
  simpl. by rewrite IH.
Qed.

Lemma strncpy_bytes_short (src : list byte) (n : nat) :
  (strlen src < n)%nat ->
  strncpy_bytes src n
  = take (strlen src) src ++ replicate (n - strlen src) NUL.
Proof.
  intros Hlt. rewrite strncpy_bytes_spec.
  rewrite take_ge; [done|]. rewrite length_take. lia.
Qed.



Lemma drop_memset (dst : list byte) (c : byte) (n : nat) :
  drop n (memset dst c n) = drop n dst.
Proof.
  unfold memset. rewrite drop_app_length'; [done|].
  symmetry. apply length_replicate.
Qed.

(** The copy overwrites all that the fill has written. *)
Lemma strncpy_memset (dst src : list byte) (c : byte) (n : nat) :
  strncpy (memset dst c n) src n = strncpy dst src n.
Proof. unfold strncpy. by rewrite drop_memset. Qed.

Lemma strncpy_whole (dst src : list byte) (n : nat) :
  length dst = n -> strncpy dst src n = strncpy_bytes src n.
Proof.
  intros Hlen. unfold strncpy.
  rewrite drop_ge by lia. apply app_nil_r.
Qed.

Lemma name_field_eq (dst name : list byte) :
  length dst = IFNAMSIZ ->
  strncpy (memset dst NUL IFNAMSIZ) (String_val name) IFNAMSIZ
  = strncpy_bytes name IFNAMSIZ.
Proof.
  intros Hlen. rewrite strncpy_memset. by apply strncpy_whole.
Qed.

(** ** Running the stubs *)

Section Run.

Context {Sys : System}.
Variable ifr0 : ifreq.

Lemma issued_of_calls {A : Type} (m : M A) (w : world) (l : list syscall) :
  calls (m w).2 = calls w ++ l -> issued m w = l.
Proof.
  unfold issued. intros ->. by rewrite drop_app_length.
Qed.

Lemma stub_bridge_add_run (fd : Z) (name : list byte) (w : world) :
  stub_bridge_add fd name w
  = contract_request SIOCBRADDBR "bridge add" (Int_val fd) (Arg_string name) w.
Proof.
  unfold stub_bridge_add, contract_request, bind, ioctl, CHECK_IOCTL, ret,
    String_val.
  destruct (sys_ioctl _ _ _ _) as [[r e] k']. simpl.
  by destruct (r <? 0).
Qed.

Lemma stub_bridge_del_run (fd : Z) (name : list byte) (w : world) :
  stub_bridge_del fd name w
  = contract_request SIOCBRDELBR "bridge del" (Int_val fd) (Arg_string name) w.
Proof.
  unfold stub_bridge_del, contract_request, bind, ioctl, CHECK_IOCTL, ret,
    String_val.
  destruct (sys_ioctl _ _ _ _) as [[r e] k']. simpl.
  by destruct (r <? 0).
Qed.

Lemma stub_bridge_intf_add_run (fd : Z) (name intf : list byte) (w : world) :
  stub_bridge_intf_add ifr0 fd name intf w
  = resolve_then_request SIOCBRADDIF "bridge intf add" fd intf
      (request_record ifr0 name) w.
Proof.
  unfold stub_bridge_intf_add, resolve_then_request, contract_request, bind,
    if_nametoindex, ioctl, CHECK_IOCTL, caml_failwith, ret, String_val,
    request_record, Int_val.
  destruct (sys_if_nametoindex _ _) as [idx e1]. simpl.
  destruct (to_int idx =? 0); [done|]. simpl.
  destruct (sys_ioctl _ _ _ _) as [[r e] k']. simpl.
  by destruct (r <? 0).
Qed.

Lemma stub_bridge_intf_del_run (fd : Z) (name intf : list byte) (w : world) :
  stub_bridge_intf_del ifr0 fd name intf w
  = resolve_then_request SIOCBRDELIF "bridge intf del" fd intf
      (request_record ifr0 name) w.
Proof.
  unfold stub_bridge_intf_del, resolve_then_request, contract_request, bind,
    if_nametoindex, ioctl, CHECK_IOCTL, caml_failwith, ret, String_val,
    request_record, Int_val.
  destruct (sys_if_nametoindex _ _) as [idx e1]. simpl.
  destruct (to_int idx =? 0); [done|]. simpl.
  destruct (sys_ioctl _ _ _ _) as [[r e] k']. simpl.
  by destruct (r <? 0).
Qed.

(** *** What one checked request does *)

Lemma contract_request_inv (request : ioctl_request) (label : string)
    (fd : Z) (argp : ioctl_arg) (w : world) :
  exists r e k',
    sys_ioctl (kernel w) fd request argp = (r, e, k')
    /\ (contract_request request label fd argp w).2
       = {| kernel := k';
            errno := set_errno e (errno w);
            calls := calls w ++ [Sys_ioctl fd request argp r] |}
    /\ (contract_request request label fd argp w).1
       = if r <? 0
         then Raises (IoctlError label (strerror (set_errno e (errno w))))
         else Returns tt.
Proof.
  unfold contract_request.
  destruct (sys_ioctl _ _ _ _) as [[r e] k']. exists r, e, k'.
  split; [done|]. by destruct (r <? 0).
Qed.

(** *** What resolving and then requesting does *)

Lemma resolve_then_request_zero (request : ioctl_request) (label : string)
    (fd : Z) (intf : list byte) (record : Z -> ifreq) (w : world)
    (idx : Z) (e1 : option Z) :
  sys_if_nametoindex (kernel w) intf = (idx, e1) ->
  to_int idx = 0 ->
  resolve_then_request request label fd intf record w
  = (Raises (Failure "Device_not_found"),
     {| kernel := kernel w;
        errno := set_errno e1 (errno w);
        calls := calls w ++ [Sys_if_nametoindex intf idx] |}).
Proof.
  intros Hres Hz. unfold resolve_then_request. rewrite Hres, Hz. done.
Qed.

Lemma resolve_then_request_nonzero (request : ioctl_request) (label : string)
    (fd : Z) (intf : list byte) (record : Z -> ifreq) (w : world)
    (idx : Z) (e1 : option Z) :
  sys_if_nametoindex (kernel w) intf = (idx, e1) ->
  to_int idx <> 0 ->
  exists r e k',
    sys_ioctl (kernel w) (to_int fd) request (Arg_ifreq (record (to_int idx)))
      = (r, e, k')
    /\ (resolve_then_request request label fd intf record w).2
       = {| kernel := k';
            errno := set_errno e (set_errno e1 (errno w));
            calls := calls w
                     ++ [Sys_if_nametoindex intf idx;
                         Sys_ioctl (to_int fd) request
                           (Arg_ifreq (record (to_int idx))) r] |}
    /\ (resolve_then_request request label fd intf record w).1
       = if r <? 0
         then Raises (IoctlError label
                        (strerror (set_errno e (set_errno e1 (errno w)))))
         else Returns tt.
Proof.
  intros Hres Hnz. unfold resolve_then_request. rewrite Hres.
  destruct (Z.eqb_spec (to_int idx) 0) as [|_]; [done|].
  unfold contract_request. simpl.
  destruct (sys_ioctl _ _ _ _) as [[r e] k']. exists r, e, k'.
  split; [done|]. rewrite <- app_assoc. simpl.
  by destruct (r <? 0).
Qed.

End Run.

(** ** The claims about failures and about the order of calls *)

Section Outcomes.

Context {Sys : System}.
Variable ifr0 : ifreq.

Lemma issued_ext {A : Type} (m m' : M A) (w : world) :
  m w = m' w -> issued m w = issued m' w.
Proof. unfold issued. by intros ->. Qed.

Lemma issued_contract_request (request : ioctl_request) (label : string)
    (fd : Z) (argp : ioctl_arg) (w : world) :
  issued (contract_request request label fd argp) w
  = [Sys_ioctl fd request argp (sys_ioctl (kernel w) fd request argp).1.1].
Proof.
  destruct (contract_request_inv request label fd argp w)
    as (r & e & k' & Hio & Hw & _).
  apply issued_of_calls. rewrite Hw, Hio. done.
Qed.

Lemma checked_ext (label : string) (m m' : M unit) (w : world) :
  m w = m' w -> checked_by_ioctl label m' w -> checked_by_ioctl label m w.
Proof.
  intros E. unfold checked_by_ioctl.
  rewrite (issued_ext m m' w E), E. done.
Qed.

Lemma contract_request_checked (request : ioctl_request) (label : string)
    (fd : Z) (argp : ioctl_arg) (w : world) :
  checked_by_ioctl label (contract_request request label fd argp) w.
Proof.
  unfold checked_by_ioctl. rewrite issued_contract_request.
  destruct (contract_request_inv request label fd argp w)
    as (r & e & k' & Hio & Hw & Ho).
  rewrite Ho, Hw, Hio. simpl.
  repeat split.
  - intros fd' rq a r' Hin Hneg.
    apply list_elem_of_singleton in Hin. injection Hin as -> -> -> ->.
    destruct (Z.ltb_spec r 0); [done|lia].
  - intros Hret. exists fd, request, argp, r.
    split; [apply list_elem_of_singleton; done|].
    destruct (Z.ltb_spec r 0); [done|lia].
  - intros (fd' & rq & a & r' & Hin & Hpos).
    apply list_elem_of_singleton in Hin. injection Hin as -> -> -> ->.
    destruct (Z.ltb_spec r 0); [lia|done].
  - destruct (Z.ltb_spec r 0); [congruence|done].
  - destruct (Z.ltb_spec r 0); [|done].
    exists fd, request, argp, r.
    split; [apply list_elem_of_singleton; done|lia].
Qed.

Lemma resolve_then_request_checked (request : ioctl_request) (label : string)
    (fd : Z) (intf : list byte) (record : Z -> ifreq) (w : world) :
  checked_by_ioctl label (resolve_then_request request label fd intf record) w.
Proof.
  destruct (sys_if_nametoindex (kernel w) intf) as [idx e1] eqn:Hres.
  destruct (Z.eq_dec (to_int idx) 0) as [Hz|Hnz].
  - pose proof (resolve_then_request_zero request label fd intf record
                  w idx e1 Hres Hz) as E.
    unfold checked_by_ioctl.
    rewrite (issued_of_calls _ w [Sys_if_nametoindex intf idx])
      by (by rewrite E).
    rewrite E. simpl. repeat split.
    + intros fd' rq a r Hin. apply list_elem_of_singleton in Hin. done.
    + done.
    + intros (fd' & rq & a & r & Hin & _).
      apply list_elem_of_singleton in Hin. done.
    + done.
    + done.
  - destruct (resolve_then_request_nonzero request label fd intf record
                w idx e1 Hres Hnz) as (r & e & k' & Hio & Hw & Ho).
    unfold checked_by_ioctl.
    rewrite (issued_of_calls _ w _ ltac:(rewrite Hw; reflexivity)).
    rewrite Ho, Hw. simpl. repeat split.
    + intros fd' rq a r' Hin Hneg.
      apply elem_of_cons in Hin as [Hin|Hin]; [done|].
      apply list_elem_of_singleton in Hin. injection Hin as -> -> -> ->.
      destruct (Z.ltb_spec r 0); [done|lia].
    + intros Hret. eexists _, _, _, r.
      split; [apply elem_of_cons; right; apply list_elem_of_singleton; done|].
      destruct (Z.ltb_spec r 0); [done|lia].
    + intros (fd' & rq & a & r' & Hin & Hpos).
      apply elem_of_cons in Hin as [Hin|Hin]; [done|].
      apply list_elem_of_singleton in Hin. injection Hin as -> -> -> ->.
      destruct (Z.ltb_spec r 0); [lia|done].
    + destruct (Z.ltb_spec r 0); [congruence|done].
    + destruct (Z.ltb_spec r 0); [|done].
      eexists _, _, _, r.
      split; [apply elem_of_cons; right; apply list_elem_of_singleton; done|lia].
Qed.

(** C4.  In each of the four operations a kernel request that fails raises
    an [IoctlError] that carries the label of that operation ("bridge add",
    "bridge del", "bridge intf add", "bridge intf del") and the text of
    [errno]; the operation returns unit exactly when its kernel request was
    made and did not fail; and it raises an [IoctlError] only on a failed
    request. *)
Theorem ioctl_failure_is_IoctlError (fd : Z) (name intf : list byte) (w : world) :
  checked_by_ioctl "bridge add" (stub_bridge_add fd name) w
  /\ checked_by_ioctl "bridge del" (stub_bridge_del fd name) w
  /\ checked_by_ioctl "bridge intf add"
       (stub_bridge_intf_add ifr0 fd name intf) w
  /\ checked_by_ioctl "bridge intf del"
       (stub_bridge_intf_del ifr0 fd name intf) w.
Proof.
  split; [|split; [|split]].
  - eapply checked_ext; [apply stub_bridge_add_run|].
    apply contract_request_checked.
  - eapply checked_ext; [apply stub_bridge_del_run|].
    apply contract_request_checked.
  - eapply checked_ext; [apply stub_bridge_intf_add_run|].
    apply resolve_then_request_checked.
  - eapply checked_ext; [apply stub_bridge_intf_del_run|].
    apply resolve_then_request_checked.
Qed.

(** C1.  When the lookup of the interface name answers zero, attach and
    detach raise [Failure "Device_not_found"], which is no [IoctlError]; the
    lookup is the only call they have made, so no [ioctl] was issued; and
    the kernel is in the state it was in. *)
Theorem device_not_found_before_request
    (fd : Z) (name intf : list byte) (w : world) :
  (sys_if_nametoindex (kernel w) (String_val intf)).1 = 0 ->
  forall m : M unit,
    m = stub_bridge_intf_add ifr0 fd name intf
    \/ m = stub_bridge_intf_del ifr0 fd name intf ->
    (m w).1 = Raises (Failure "Device_not_found")
    /\ (forall label text, (m w).1 <> Raises (IoctlError label text))
    /\ issued m w = [Sys_if_nametoindex (String_val intf) 0]
    /\ Forall (fun c => is_ioctl c = false) (issued m w)
    /\ records_sent (issued m w) = []
    /\ kernel (m w).2 = kernel w.
Proof.
  unfold String_val. intros Hzero m Hm.
  destruct (sys_if_nametoindex (kernel w) intf) as [idx e1] eqn:Hres.
  simpl in Hzero. subst idx.
  assert (m w = (Raises (Failure "Device_not_found"),
                 {| kernel := kernel w;
                    errno := set_errno e1 (errno w);
                    calls := calls w ++ [Sys_if_nametoindex intf 0] |}))
    as E.
  { destruct Hm as [-> | ->].
    - rewrite stub_bridge_intf_add_run.
      by apply resolve_then_request_zero.
    - rewrite stub_bridge_intf_del_run.
      by apply resolve_then_request_zero. }
  rewrite (issued_of_calls m w [Sys_if_nametoindex intf 0])
    by (by rewrite E).
  rewrite E. simpl. repeat split; try done.
  by repeat constructor.
Qed.

(** C7.  Create and destroy make one call, an [ioctl], whatever comes of
    it.  Attach and detach first make one name lookup and then, unless they
    stop there without returning, one [ioctl]: a call that returns has made
    exactly the lookup and then the [ioctl]. *)
Theorem one_request_per_call (fd : Z) (name intf : list byte) (w : world) :
  (exists r,
      issued (stub_bridge_add fd name) w
      = [Sys_ioctl (Int_val fd) SIOCBRADDBR (Arg_string (String_val name)) r])
  /\ (exists r,
        issued (stub_bridge_del fd name) w
        = [Sys_ioctl (Int_val fd) SIOCBRDELBR (Arg_string (String_val name)) r])
  /\ (exists idx,
        (issued (stub_bridge_intf_add ifr0 fd name intf) w
         = [Sys_if_nametoindex (String_val intf) idx]
         /\ (stub_bridge_intf_add ifr0 fd name intf w).1 <> Returns tt)
        \/ (exists rec r,
              issued (stub_bridge_intf_add ifr0 fd name intf) w
              = [Sys_if_nametoindex (String_val intf) idx;
                 Sys_ioctl (Int_val fd) SIOCBRADDIF (Arg_ifreq rec) r]))
  /\ (exists idx,
        (issued (stub_bridge_intf_del ifr0 fd name intf) w
         = [Sys_if_nametoindex (String_val intf) idx]
         /\ (stub_bridge_intf_del ifr0 fd name intf w).1 <> Returns tt)
        \/ (exists rec r,
              issued (stub_bridge_intf_del ifr0 fd name intf) w
              = [Sys_if_nametoindex (String_val intf) idx;
                 Sys_ioctl (Int_val fd) SIOCBRDELIF (Arg_ifreq rec) r])).
Proof.
  assert (forall request label,
    exists idx,
      (issued (resolve_then_request request label fd intf
                 (request_record ifr0 name)) w
       = [Sys_if_nametoindex intf idx]
       /\ (resolve_then_request request label fd intf
             (request_record ifr0 name) w).1 <> Returns tt)
      \/ (exists rec r,
            issued (resolve_then_request request label fd intf
                      (request_record ifr0 name)) w
            = [Sys_if_nametoindex intf idx;
               Sys_ioctl (Int_val fd) request (Arg_ifreq rec) r])) as Hintf.
  { intros request label.
    destruct (sys_if_nametoindex (kernel w) intf) as [idx e1] eqn:Hres.
    exists idx.
    destruct (Z.eq_dec (to_int idx) 0) as [Hz|Hnz].
    - left.
      pose proof (resolve_then_request_zero request label fd intf
                    (request_record ifr0 name) w idx e1 Hres Hz) as E.
      split; [apply issued_of_calls; by rewrite E|by rewrite E].
    - right.
      destruct (resolve_then_request_nonzero request label fd intf
                  (request_record ifr0 name) w idx e1 Hres Hnz)
        as (r & e & k' & _ & Hw & _).
      eexists _, r. apply issued_of_calls. by rewrite Hw. }
  unfold String_val. split; [|split; [|split]].
  - eexists.
    rewrite (issued_ext _ _ w (stub_bridge_add_run fd name w)).
    apply issued_contract_request.
  - eexists.
    rewrite (issued_ext _ _ w (stub_bridge_del_run fd name w)).
    apply issued_contract_request.
  - rewrite (issued_ext _ _ w (stub_bridge_intf_add_run ifr0 fd name intf w)),
      stub_bridge_intf_add_run.
    apply Hintf.
  - rewrite (issued_ext _ _ w (stub_bridge_intf_del_run ifr0 fd name intf w)),
      stub_bridge_intf_del_run.
    apply Hintf.
Qed.

(** C10.  Create and destroy hand the name to the kernel as it is, whatever
    its length, in the one call they make, which is no name lookup; they
    never raise [Failure] (so never "Device_not_found"); they return, or
    raise the [IoctlError] of their label. *)
Theorem bridge_name_passed_as_is (fd : Z) (name : list byte) (w : world) :
  ((exists r,
       issued (stub_bridge_add fd name) w
       = [Sys_ioctl (Int_val fd) SIOCBRADDBR (Arg_string name) r])
   /\ Forall (fun c => is_resolution c = false)
        (issued (stub_bridge_add fd name) w)
   /\ (forall msg, (stub_bridge_add fd name w).1 <> Raises (Failure msg))
   /\ ((stub_bridge_add fd name w).1 = Returns tt
       \/ exists text,
            (stub_bridge_add fd name w).1
            = Raises (IoctlError "bridge add" text))
   /\ stub_bridge_add fd name w
      = contract_bridge_request SIOCBRADDBR "bridge add" fd name w)
  /\ ((exists r,
         issued (stub_bridge_del fd name) w
         = [Sys_ioctl (Int_val fd) SIOCBRDELBR (Arg_string name) r])
      /\ Forall (fun c => is_resolution c = false)
           (issued (stub_bridge_del fd name) w)
      /\ (forall msg, (stub_bridge_del fd name w).1 <> Raises (Failure msg))
      /\ ((stub_bridge_del fd name w).1 = Returns tt
          \/ exists text,
               (stub_bridge_del fd name w).1
               = Raises (IoctlError "bridge del" text))
      /\ stub_bridge_del fd name w
         = contract_bridge_request SIOCBRDELBR "bridge del" fd name w).
Proof.
  assert (forall request label,
    (forall msg,
        (contract_request request label (Int_val fd) (Arg_string name) w).1
        <> Raises (Failure msg))
    /\ ((contract_request request label (Int_val fd) (Arg_string name) w).1
        = Returns tt
        \/ exists text,
             (contract_request request label (Int_val fd) (Arg_string name) w).1
             = Raises (IoctlError label text))) as Hout.
  { intros request label.
    destruct (contract_request_inv request label (Int_val fd)
                (Arg_string name) w) as (r & e & k' & _ & _ & Ho).
    rewrite Ho. destruct (r <? 0); split; eauto; done. }
  split.
  - rewrite (issued_ext _ _ w (stub_bridge_add_run fd name w)),
      issued_contract_request.
    split; [eauto|]. split; [by repeat constructor|].
    rewrite stub_bridge_add_run. split; [|split].
    + apply Hout.
    + apply Hout.
    + done.
  - rewrite (issued_ext _ _ w (stub_bridge_del_run fd name w)),
      issued_contract_request.
    split; [eauto|]. split; [by repeat constructor|].
    rewrite stub_bridge_del_run. split; [|split].
    + apply Hout.
    + apply Hout.
    + done.
Qed.

End Outcomes.

(** ** The claims about the request record *)

Section Records.

Context {Sys : System}.
Variable ifr0 : ifreq.

Lemma resolve_then_request_ext (request : ioctl_request) (label : string)
    (fd : Z) (intf : list byte) (rec rec' : Z -> ifreq) (w : world) :
  (forall i, rec i = rec' i) ->
  resolve_then_request request label fd intf rec w
  = resolve_then_request request label fd intf rec' w.
Proof.
  intros E. unfold resolve_then_request.
  destruct (sys_if_nametoindex _ _) as [idx e1].
  by rewrite E.
Qed.

Lemma records_sent_resolve_then_request (request : ioctl_request)
    (label : string) (fd : Z) (intf : list byte) (rec : Z -> ifreq)
    (w : world) :
  records_sent (issued (resolve_then_request request label fd intf rec) w)
  = let i := to_int (sys_if_nametoindex (kernel w) intf).1 in
    if i =? 0 then [] else [rec i].
Proof.
  destruct (sys_if_nametoindex (kernel w) intf) as [idx e1] eqn:Hres.
  simpl. destruct (Z.eqb_spec (to_int idx) 0) as [Hz|Hnz].
  - rewrite (issued_of_calls _ w [Sys_if_nametoindex intf idx]); [done|].
    by rewrite (resolve_then_request_zero _ _ _ _ _ _ idx e1 Hres Hz).
  - destruct (resolve_then_request_nonzero request label fd intf rec
                w idx e1 Hres Hnz) as (r & e & k' & _ & Hw & _).
    rewrite (issued_of_calls _ w _ ltac:(rewrite Hw; reflexivity)). done.
Qed.

(** The records that attach and detach send: none when the lookup gives
    zero, otherwise the one built at lines 46 to 48 (66 to 68). *)
Lemma records_sent_intf (fd : Z) (name intf : list byte) (w : world)
    (m : M unit) :
  m = stub_bridge_intf_add ifr0 fd name intf
  \/ m = stub_bridge_intf_del ifr0 fd name intf ->
  records_sent (issued m w)
  = let i := to_int (sys_if_nametoindex (kernel w) intf).1 in
    if i =? 0 then [] else [request_record ifr0 name i].
Proof.
  intros [-> | ->].
  - rewrite (issued_ext _ _ w (stub_bridge_intf_add_run ifr0 fd name intf w)).
    apply records_sent_resolve_then_request.
  - rewrite (issued_ext _ _ w (stub_bridge_intf_del_run ifr0 fd name intf w)).
    apply records_sent_resolve_then_request.
Qed.

Lemma request_record_contract (name : list byte) (i : Z) :
  length (ifr_name ifr0) = IFNAMSIZ ->
  request_record ifr0 name i
  = {| ifr_name := contract_name_field name; ifr_ifindex := i |}.
Proof.
  intros Hlen. unfold request_record, contract_name_field.
  by rewrite name_field_eq, strncpy_bytes_spec.
Qed.


(** C9.  When the bridge name, as the C string the copy reads, is shorter
    than [IFNAMSIZ] bytes, the name field of every record that attach and
    detach send is the bytes of the name followed by zero bytes up to
    [IFNAMSIZ]; it is what the copy alone would have left, without the
    zero fill before it; and a record is sent whenever the lookup
    succeeds. *)
Theorem short_name_zero_padded (fd : Z) (name intf : list byte) (w : world) :
  length (ifr_name ifr0) = IFNAMSIZ ->
  (strlen (String_val name) < IFNAMSIZ)%nat ->
  forall m : M unit,
    m = stub_bridge_intf_add ifr0 fd name intf
    \/ m = stub_bridge_intf_del ifr0 fd name intf ->
    Forall (fun rec =>
              ifr_name rec
              = take (strlen name) name
                  ++ replicate (IFNAMSIZ - strlen name) NUL
              /\ (NUL ∉ name ->
                  ifr_name rec
                  = name ++ replicate (IFNAMSIZ - length name) NUL)
              /\ length (ifr_name rec) = IFNAMSIZ
              /\ ifr_name rec
                 = strncpy (ifr_name ifr0) (String_val name) IFNAMSIZ)
           (records_sent (issued m w))
    /\ (to_int (sys_if_nametoindex (kernel w) (String_val intf)).1 <> 0 ->
        exists rec, records_sent (issued m w) = [rec]).
Proof.
  unfold String_val. intros Hlen Hshort m Hm.
  rewrite (records_sent_intf fd name intf w m Hm). simpl.
  destruct (Z.eqb_spec (to_int (sys_if_nametoindex (kernel w) intf).1) 0)
    as [Hz|Hnz].
  - split; [constructor|done].
  - split; [|eauto].
    constructor; [|constructor]. unfold request_record.
    cbn [ifr_name ifr_ifindex].
    split; [|split; [|split]].
    + rewrite name_field_eq by done. by apply strncpy_bytes_short.
    + intros Hfree. rewrite name_field_eq by done.
      rewrite strncpy_bytes_short by done.
      rewrite (strlen_no_NUL name Hfree). by rewrite firstn_all.
    + rewrite name_field_eq by done. apply length_strncpy_bytes.
    + apply strncpy_memset.
Qed.


(** C5.  Detach is attach with the request [SIOCBRDELIF] in place of
    [SIOCBRADDIF] and the label "bridge intf del" in place of
    "bridge intf add": each is the one operation of the contract at its
    request and label.  They stop with "Device_not_found" on the same
    inputs, leaving the same world, and they send the same records; when
    the lookup succeeds their calls are the same lookup and an [ioctl] on
    the same descriptor with the same record, under the other request. *)
Theorem detach_is_attach_but_for_request
    (fd : Z) (name intf : list byte) (w : world) :
  length (ifr_name ifr0) = IFNAMSIZ ->
  stub_bridge_intf_add ifr0 fd name intf w
  = contract_intf_request SIOCBRADDIF "bridge intf add" fd name intf w
  /\ stub_bridge_intf_del ifr0 fd name intf w
     = contract_intf_request SIOCBRDELIF "bridge intf del" fd name intf w
  /\ ((stub_bridge_intf_add ifr0 fd name intf w).1
        = Raises (Failure "Device_not_found")
      <-> (stub_bridge_intf_del ifr0 fd name intf w).1
          = Raises (Failure "Device_not_found"))
  /\ ((stub_bridge_intf_add ifr0 fd name intf w).1
        = Raises (Failure "Device_not_found") ->
      stub_bridge_intf_add ifr0 fd name intf w
      = stub_bridge_intf_del ifr0 fd name intf w)
  /\ records_sent (issued (stub_bridge_intf_add ifr0 fd name intf) w)
     = records_sent (issued (stub_bridge_intf_del ifr0 fd name intf) w)
  /\ (to_int (sys_if_nametoindex (kernel w) (String_val intf)).1 <> 0 ->
      exists idx rec r r',
        issued (stub_bridge_intf_add ifr0 fd name intf) w
        = [Sys_if_nametoindex (String_val intf) idx;
           Sys_ioctl (Int_val fd) SIOCBRADDIF (Arg_ifreq rec) r]
        /\ issued (stub_bridge_intf_del ifr0 fd name intf) w
           = [Sys_if_nametoindex (String_val intf) idx;
              Sys_ioctl (Int_val fd) SIOCBRDELIF (Arg_ifreq rec) r']).
Proof.
  intros Hlen.
  split; [|split; [|split; [|split; [|split]]]].
  - rewrite stub_bridge_intf_add_run. unfold contract_intf_request.
    apply resolve_then_request_ext. intros i.
    by apply request_record_contract.
  - rewrite stub_bridge_intf_del_run. unfold contract_intf_request.
    apply resolve_then_request_ext. intros i.
    by apply request_record_contract.
  - rewrite stub_bridge_intf_add_run, stub_bridge_intf_del_run.
    destruct (sys_if_nametoindex (kernel w) intf) as [idx e1] eqn:Hres.
    destruct (Z.eq_dec (to_int idx) 0) as [Hz|Hnz].
    + by rewrite !(resolve_then_request_zero _ _ _ _ _ _ idx e1 Hres Hz).
    + destruct (resolve_then_request_nonzero SIOCBRADDIF "bridge intf add"
                  fd intf (request_record ifr0 name) w idx e1 Hres Hnz)
        as (r & e & k' & _ & _ & Ho).
      destruct (resolve_then_request_nonzero SIOCBRDELIF "bridge intf del"
                  fd intf (request_record ifr0 name) w idx e1 Hres Hnz)
        as (r' & e' & k'' & _ & _ & Ho').
      rewrite Ho, Ho'. destruct (r <? 0), (r' <? 0); split; done.
  - rewrite stub_bridge_intf_add_run, stub_bridge_intf_del_run.
    destruct (sys_if_nametoindex (kernel w) intf) as [idx e1] eqn:Hres.
    destruct (Z.eq_dec (to_int idx) 0) as [Hz|Hnz].
    + by rewrite !(resolve_then_request_zero _ _ _ _ _ _ idx e1 Hres Hz).
    + destruct (resolve_then_request_nonzero SIOCBRADDIF "bridge intf add"
                  fd intf (request_record ifr0 name) w idx e1 Hres Hnz)
        as (r & e & k' & _ & _ & Ho).
      rewrite Ho. by destruct (r <? 0).
  - rewrite !(records_sent_intf fd name intf w); auto.
  - unfold String_val.
    destruct (sys_if_nametoindex (kernel w) intf) as [idx e1] eqn:Hres.
    simpl. intros Hnz.
    destruct (resolve_then_request_nonzero SIOCBRADDIF "bridge intf add"
                fd intf (request_record ifr0 name) w idx e1 Hres Hnz)
      as (r & e & k' & _ & Hw & _).
    destruct (resolve_then_request_nonzero SIOCBRDELIF "bridge intf del"
                fd intf (request_record ifr0 name) w idx e1 Hres Hnz)
      as (r' & e' & k'' & _ & Hw' & _).
    exists idx, (request_record ifr0 name (to_int idx)), r, r'.
    split; apply issued_of_calls.
    + by rewrite stub_bridge_intf_add_run, Hw.
    + by rewrite stub_bridge_intf_del_run, Hw'.
Qed.

End Records.

(** ** The claims that lean on the kernel *)

Section Kernel.

Context {Sys : System}.
Variable ifr0 : ifreq.

Lemma kernel_contract_request (request : ioctl_request) (label : string)
    (fd : Z) (argp : ioctl_arg) (w : world) :
  kernel (contract_request request label fd argp w).2
  = (sys_ioctl (kernel w) fd request argp).2.
Proof.
  destruct (contract_request_inv request label fd argp w)
    as (r & e & k' & Hio & Hw & _).
  by rewrite Hw, Hio.
Qed.

Lemma kernel_resolve_then_request (request : ioctl_request) (label : string)
    (fd : Z) (intf : list byte) (rec : Z -> ifreq) (w : world) :
  kernel (resolve_then_request request label fd intf rec w).2 = kernel w
  \/ exists argp,
       kernel (resolve_then_request request label fd intf rec w).2
       = (sys_ioctl (kernel w) (Int_val fd) request argp).2.
Proof.
  destruct (sys_if_nametoindex (kernel w) intf) as [idx e1] eqn:Hres.
  destruct (Z.eq_dec (to_int idx) 0) as [Hz|Hnz].
  - left. by rewrite (resolve_then_request_zero _ _ _ _ _ _ idx e1 Hres Hz).
  - right.
    destruct (resolve_then_request_nonzero request label fd intf rec
                w idx e1 Hres Hnz) as (r & e & k' & Hio & Hw & _).
    eexists. rewrite Hw. unfold Int_val. by rewrite Hio.
Qed.

Lemma calls_extended (fd : Z) (name intf : list byte) (m : M unit) (w : world) :
  is_operation ifr0 fd name intf m ->
  calls (m w).2 = calls w ++ issued m w
  /\ Forall (borrows fd name intf) (issued m w).
Proof.
  assert (forall request label argp,
    (argp = Arg_string name \/ exists rec, argp = Arg_ifreq rec) ->
    calls (contract_request request label (Int_val fd) argp w).2
    = calls w ++ issued (contract_request request label (Int_val fd) argp) w
    /\ Forall (borrows fd name intf)
         (issued (contract_request request label (Int_val fd) argp) w))
    as Hone.
  { intros request label argp Harg.
    rewrite issued_contract_request.
    destruct (contract_request_inv request label (Int_val fd) argp w)
      as (r & e & k' & Hio & Hw & _).
    rewrite Hw, Hio. split; [done|].
    constructor; [|constructor]. done. }
  assert (forall request label,
    calls (resolve_then_request request label fd intf
             (request_record ifr0 name) w).2
    = calls w ++ issued (resolve_then_request request label fd intf
                           (request_record ifr0 name)) w
    /\ Forall (borrows fd name intf)
         (issued (resolve_then_request request label fd intf
                    (request_record ifr0 name)) w))
    as Htwo.
  { intros request label.
    destruct (sys_if_nametoindex (kernel w) intf) as [idx e1] eqn:Hres.
    destruct (Z.eq_dec (to_int idx) 0) as [Hz|Hnz].
    - pose proof (resolve_then_request_zero request label fd intf
                    (request_record ifr0 name) w idx e1 Hres Hz) as E.
      rewrite (issued_of_calls _ w [Sys_if_nametoindex intf idx])
        by (by rewrite E).
      rewrite E. split; [done|]. constructor; [done|constructor].
    - destruct (resolve_then_request_nonzero request label fd intf
                  (request_record ifr0 name) w idx e1 Hres Hnz)
        as (r & e & k' & _ & Hw & _).
      rewrite (issued_of_calls _ w _ ltac:(rewrite Hw; reflexivity)).
      rewrite Hw. split; [done|].
      constructor; [done|]. constructor; [|constructor].
      simpl. split; [done|]. right. eauto. }
  intros [-> | [-> | [-> | ->]]].
  - rewrite (issued_ext _ _ w (stub_bridge_add_run fd name w)),
      stub_bridge_add_run. apply Hone. by left.
  - rewrite (issued_ext _ _ w (stub_bridge_del_run fd name w)),
      stub_bridge_del_run. apply Hone. by left.
  - rewrite (issued_ext _ _ w (stub_bridge_intf_add_run ifr0 fd name intf w)),
      stub_bridge_intf_add_run. apply Htwo.
  - rewrite (issued_ext _ _ w (stub_bridge_intf_del_run ifr0 fd name intf w)),
      stub_bridge_intf_del_run. apply Htwo.
Qed.

Lemma kernel_after_operation (fd : Z) (name intf : list byte) (m : M unit)
    (w : world) :
  is_operation ifr0 fd name intf m ->
  kernel (m w).2 = kernel w
  \/ exists request argp,
       kernel (m w).2 = (sys_ioctl (kernel w) (Int_val fd) request argp).2.
Proof.
  intros [-> | [-> | [-> | ->]]].
  - right. rewrite stub_bridge_add_run, kernel_contract_request. eauto.
  - right. rewrite stub_bridge_del_run, kernel_contract_request. eauto.
  - rewrite stub_bridge_intf_add_run.
    destruct (kernel_resolve_then_request SIOCBRADDIF "bridge intf add"
                fd intf (request_record ifr0 name) w) as [E|[a E]]; eauto.
  - rewrite stub_bridge_intf_del_run.
    destruct (kernel_resolve_then_request SIOCBRDELIF "bridge intf del"
                fd intf (request_record ifr0 name) w) as [E|[a E]]; eauto.
Qed.

(** *** Creating and destroying a bridge *)

(** What the kernel says of bridges: which names are well formed, which
    descriptors are control sockets of a process allowed to configure the
    network, which names no device bears, and the ports of a bridge.  A
    create request on a well-formed name that no device bears succeeds and
    leaves a bridge without ports; a destroy request on a bridge without
    ports succeeds and leaves no bridge of that name. *)
Variable valid_name : list byte -> Prop.
Variable ctl_socket : kstate -> Z -> Prop.
Variable unused : kstate -> list byte -> Prop.
Variable bridge_ports : kstate -> list byte -> option (list Z).

Hypothesis create_contract :
  forall k fd name,
    ctl_socket k fd -> valid_name name -> unused k name ->
    exists r e k',
      sys_ioctl k fd SIOCBRADDBR (Arg_string name) = (r, e, k')
      /\ 0 <= r /\ ctl_socket k' fd /\ bridge_ports k' name = Some [].

Hypothesis destroy_contract :
  forall k fd name,
    ctl_socket k fd -> valid_name name -> bridge_ports k name = Some [] ->
    exists r e k',
      sys_ioctl k fd SIOCBRDELBR (Arg_string name) = (r, e, k')
      /\ 0 <= r /\ bridge_ports k' name = None.

(** C6.  On such a kernel, for a well-formed name that no device bears,
    create returns and leaves the bridge, destroy then returns, and no
    bridge of that name is left. *)
Theorem create_then_destroy (fd : Z) (name : list byte) (w : world) :
  ctl_socket (kernel w) (Int_val fd) ->
  valid_name name ->
  unused (kernel w) name ->
  (stub_bridge_add fd name w).1 = Returns tt
  /\ bridge_ports (kernel (stub_bridge_add fd name w).2) name = Some []
  /\ (stub_bridge_del fd name (stub_bridge_add fd name w).2).1 = Returns tt
  /\ bridge_ports
       (kernel (stub_bridge_del fd name (stub_bridge_add fd name w).2).2) name
     = None.
Proof.
  intros Hsock Hvalid Hfree.
  destruct (create_contract _ _ _ Hsock Hvalid Hfree)
    as (r & e & k1 & Hio & Hr & Hsock1 & Hports).
  rewrite stub_bridge_add_run.
  destruct (contract_request_inv SIOCBRADDBR "bridge add" (Int_val fd)
              (Arg_string name) w) as (r' & e' & k' & Hio' & Hw & Ho).
  rewrite Hio in Hio'. injection Hio' as <- <- <-.
  rewrite Ho, Hw.
  destruct (Z.ltb_spec r 0) as [|_]; [lia|].
  split; [done|]. split; [done|].
  rewrite stub_bridge_del_run.
  destruct (destroy_contract _ _ _ Hsock1 Hvalid Hports)
    as (r2 & e2 & k2 & Hio2 & Hr2 & Hgone).
  match goal with
  | |- context [contract_request SIOCBRDELBR ?l ?f ?a ?w1] =>
      destruct (contract_request_inv SIOCBRDELBR l f a w1)
        as (r3 & e3 & k3 & Hio3 & Hw3 & Ho3)
  end.
  simpl in Hio3. rewrite Hio2 in Hio3. injection Hio3 as <- <- <-.
  rewrite Ho3, Hw3.
  destruct (Z.ltb_spec r2 0) as [|_]; [lia|]. done.
Qed.

End Kernel.

(** ** The small kernel keeps the contracts *)

Module RefKernelFacts.

Import RefKernel.

Lemma same_name_refl (n : list byte) : same_name n n = true.
Proof. unfold same_name. by apply bool_decide_eq_true. Qed.

Lemma assoc_remove_key {V : Type} (n : list byte) (l : list (list byte * V)) :
  assoc n (remove_key n l) = None.
Proof.
  induction l as [|[m v] l IH]; [done|].
  simpl. destruct (same_name n m) eqn:E; [done|].
  simpl. by rewrite E.
Qed.

Lemma name_char_ok_not_NUL (c : byte) : name_char_ok c = true -> c <> NUL.
Proof.
  unfold name_char_ok. intros H.
  apply andb_prop in H as [H _]. apply andb_prop in H as [H _].
  apply is_NUL_false. by destruct (is_NUL c).
Qed.

Lemma kname_valid (n : list byte) : valid_name n = true -> kname n = n.
Proof.
  unfold valid_name, kname. destruct n as [|c n]; [done|].
  intros H. apply andb_prop in H as [Hlen Hok].
  apply Nat.ltb_lt in Hlen. unfold IFNAMSIZ in *.
  rewrite (take_ge (c :: n)) by lia.
  rewrite strlen_no_NUL; [by rewrite firstn_all|].
  intros Hin. rewrite forallb_forall in Hok.
  apply list_elem_of_In in Hin.
  by apply (name_char_ok_not_NUL _ (Hok _ Hin)).
Qed.

Lemma do_ioctl_socks (k : state) (fd : Z) (request : ioctl_request)
    (argp : ioctl_arg) :
  socks (do_ioctl k fd request argp).2 = socks k.
Proof.
  unfold do_ioctl. destruct (has_sock k fd); simpl; [|done].
  destruct request, argp; simpl; try done;
    repeat (case_match; simpl; try done).
Qed.

Lemma ioctl_keeps_socks (k : state) (fd : Z) (request : ioctl_request)
    (argp : ioctl_arg) (d : Z) :
  has_sock (do_ioctl k fd request argp).2 d = true <-> has_sock k d = true.
Proof. unfold has_sock. by rewrite do_ioctl_socks. Qed.

Lemma create_succeeds (k : state) (fd : Z) (name : list byte) :
  has_sock k fd = true -> valid_name name = true -> unused k name ->
  exists r e k',
    do_ioctl k fd SIOCBRADDBR (Arg_string name) = (r, e, k')
    /\ 0 <= r /\ has_sock k' fd = true /\ bridge_ports k' name = Some [].
Proof.
  unfold unused. intros Hsock Hvalid Hfree.
  unfold do_ioctl. rewrite Hsock. simpl.
  rewrite (kname_valid name Hvalid), Hvalid. simpl. rewrite Hfree.
  eexists _, _, _. split; [done|]. split; [done|]. split; [done|].
  unfold bridge_ports. simpl. by rewrite same_name_refl.
Qed.

Lemma destroy_succeeds (k : state) (fd : Z) (name : list byte) :
  has_sock k fd = true -> valid_name name = true ->
  bridge_ports k name = Some [] ->
  exists r e k',
    do_ioctl k fd SIOCBRDELBR (Arg_string name) = (r, e, k')
    /\ 0 <= r /\ bridge_ports k' name = None.
Proof.
  unfold bridge_ports. intros Hsock Hvalid Hports.
  unfold do_ioctl. rewrite Hsock. simpl.
  rewrite (kname_valid name Hvalid), Hports.
  eexists _, _, _. split; [done|]. split; [done|].
  simpl. apply assoc_remove_key.
Qed.

End RefKernelFacts.

(** ** The stubs on the small kernel *)

Section OnRefKernel.

Import RefKernel.

#[local] Existing Instance system.

(** The scenario of the contract: create "testbr0", attach "eth-test0",
    detach it, destroy "testbr0"; all four return. *)
Example bridge_scenario :
  let r1 := stub_bridge_add 3 testbr0 boot in
  let r2 := stub_bridge_intf_add stack_garbage 3 testbr0 eth_test0 r1.2 in
  let r3 := stub_bridge_intf_del stack_garbage 3 testbr0 eth_test0 r2.2 in
  let r4 := stub_bridge_del 3 testbr0 r3.2 in
  r1.1 = Returns tt /\ r2.1 = Returns tt /\ r3.1 = Returns tt
  /\ r4.1 = Returns tt
  /\ bridge_ports (kernel r2.2) testbr0 = Some [2]
  /\ bridge_ports (kernel r4.2) testbr0 = None.
Proof. vm_compute. repeat split. Qed.

Lemma device_not_found_before_request_witness :
  (sys_if_nametoindex (kernel bridged) nosuch_iface).1 = 0
  /\ (stub_bridge_intf_add stack_garbage 3 testbr0 nosuch_iface bridged).1
     = Raises (Failure "Device_not_found")
  /\ issued (stub_bridge_intf_add stack_garbage 3 testbr0 nosuch_iface) bridged
     = [Sys_if_nametoindex nosuch_iface 0]
  /\ kernel (stub_bridge_intf_add stack_garbage 3 testbr0 nosuch_iface
               bridged).2
     = kernel bridged.
Proof.
  split; [reflexivity|].
  destruct (device_not_found_before_request stack_garbage 3 testbr0
              nosuch_iface bridged eq_refl _ (or_introl eq_refl))
    as (Hout & _ & Hcalls & _ & _ & Hkernel).
  split; [exact Hout|]. split; [exact Hcalls|exact Hkernel].
Defined.



(** A bridge name of 3 bytes with a zero byte in the middle: the name field
    sent is "a" and fifteen zero bytes, not the three bytes and thirteen
    zero bytes. *)
Lemma short_name_with_zero_byte_is_cut :
  (length a_zero_b < IFNAMSIZ)%nat
  /\ records_sent
       (issued (stub_bridge_intf_add stack_garbage 3 a_zero_b eth_test0)
          bridged)
     = [{| ifr_name := list_byte_of_string "a" ++ replicate 15 NUL;
           ifr_ifindex := 2 |}]
  /\ records_sent
       (issued (stub_bridge_intf_del stack_garbage 3 a_zero_b eth_test0)
          bridged)
     = [{| ifr_name := list_byte_of_string "a" ++ replicate 15 NUL;
           ifr_ifindex := 2 |}]
  /\ list_byte_of_string "a" ++ replicate 15 NUL
     <> a_zero_b ++ replicate (IFNAMSIZ - length a_zero_b) NUL.
Proof.
  split; [vm_compute; lia|]. split; [reflexivity|]. split; [reflexivity|].
  discriminate.
Qed.

Lemma short_name_zero_padded_witness :
  (strlen testbr0 < IFNAMSIZ)%nat
  /\ records_sent
       (issued (stub_bridge_intf_del stack_garbage 3 testbr0 eth_test0)
          bridged)
     = [{| ifr_name := testbr0 ++ replicate 9 NUL; ifr_ifindex := 2 |}]
  /\ Forall (fun rec =>
               ifr_name rec
               = take (strlen testbr0) testbr0
                   ++ replicate (IFNAMSIZ - strlen testbr0) NUL
               /\ (NUL ∉ testbr0 ->
                   ifr_name rec
                   = testbr0 ++ replicate (IFNAMSIZ - length testbr0) NUL)
               /\ length (ifr_name rec) = IFNAMSIZ
               /\ ifr_name rec
                  = strncpy (ifr_name stack_garbage) (String_val testbr0)
                      IFNAMSIZ)
       (records_sent
          (issued (stub_bridge_intf_del stack_garbage 3 testbr0 eth_test0)
             bridged)).
Proof.
  assert (strlen testbr0 < IFNAMSIZ)%nat as Hshort by (vm_compute; lia).
  split; [exact Hshort|]. split; [reflexivity|].
  exact (proj1 (short_name_zero_padded stack_garbage 3 testbr0 eth_test0
                  bridged eq_refl Hshort _ (or_intror eq_refl))).
Defined.


Lemma detach_is_attach_but_for_request_witness :
  length (ifr_name stack_garbage) = IFNAMSIZ
  /\ stub_bridge_intf_del stack_garbage 3 testbr0 eth_test0 bridged
     = contract_intf_request SIOCBRDELIF "bridge intf del" 3 testbr0
         eth_test0 bridged
  /\ records_sent
       (issued (stub_bridge_intf_add stack_garbage 3 testbr0 eth_test0)
          bridged)
     = records_sent
         (issued (stub_bridge_intf_del stack_garbage 3 testbr0 eth_test0)
            bridged).
Proof.
  split; [reflexivity|].
  destruct (detach_is_attach_but_for_request stack_garbage 3 testbr0
              eth_test0 bridged eq_refl) as (_ & Hdel & _ & _ & Hrec & _).
  split; [exact Hdel|exact Hrec].
Defined.

Lemma create_then_destroy_witness :
  sock_open (kernel boot) (Int_val 3)
  /\ well_formed testbr0
  /\ unused (kernel boot) testbr0
  /\ (stub_bridge_add 3 testbr0 boot).1 = Returns tt
  /\ bridge_ports (kernel (stub_bridge_add 3 testbr0 boot).2) testbr0
     = Some []
  /\ (stub_bridge_del 3 testbr0 (stub_bridge_add 3 testbr0 boot).2).1
     = Returns tt
  /\ bridge_ports
       (kernel (stub_bridge_del 3 testbr0 (stub_bridge_add 3 testbr0 boot).2).2)
       testbr0
     = None.
Proof.
  assert (sock_open (kernel boot) (Int_val 3)) as Hsock by reflexivity.
  assert (well_formed testbr0) as Hvalid by reflexivity.
  assert (unused (kernel boot) testbr0) as Hfree by reflexivity.
  split; [exact Hsock|]. split; [exact Hvalid|]. split; [exact Hfree|].
  exact (create_then_destroy (Sys := system)
           well_formed sock_open unused bridge_ports
           RefKernelFacts.create_succeeds RefKernelFacts.destroy_succeeds
           3 testbr0 boot Hsock Hvalid Hfree).
Defined.

End OnRefKernel.

(** ** Further properties of the stubs *)

Lemma to_int_congr (z z' : Z) :
  z mod 2 ^ 32 = z' mod 2 ^ 32 -> to_int z = to_int z'.
Proof.
  intros E. unfold to_int. f_equal.
  rewrite (Zplus_mod z), (Zplus_mod z'), E. done.
Qed.

Lemma strlen_take_strlen (s : list byte) :
  strlen (take (strlen s) s) = strlen s.
Proof.
  induction s as [|c s IH]; [done|].
  simpl. destruct (is_NUL c) eqn:E; [done|].
  simpl. rewrite E. by rewrite IH.
Qed.

(** The copy reads a name through its first [n] bytes as a C string. *)
Lemma strncpy_bytes_prefix (n1 n2 : list byte) (n : nat) :
  take n (take (strlen n1) n1) = take n (take (strlen n2) n2) ->
  strncpy_bytes n1 n = strncpy_bytes n2 n.
Proof.
  intros E. rewrite !strncpy_bytes_spec, E. f_equal. f_equal.
  apply (f_equal length) in E. rewrite !length_take in E.
  pose proof (strlen_le_length n1). pose proof (strlen_le_length n2). lia.
Qed.

Section Further.

Context {Sys : System}.

Lemma request_record_prefix (ifr : ifreq) (n1 n2 : list byte) (i : Z) :
  take IFNAMSIZ (take (strlen n1) n1) = take IFNAMSIZ (take (strlen n2) n2) ->
  request_record ifr n1 i = request_record ifr n2 i.
Proof.
  intros E. unfold request_record, strncpy, String_val.
  by rewrite (strncpy_bytes_prefix n1 n2 IFNAMSIZ E).
Qed.

Lemma intf_stubs_same_record (ifr ifr' : ifreq) (n1 n2 : list byte)
    (fd : Z) (intf : list byte) (w : world) :
  (forall i, request_record ifr n1 i = request_record ifr' n2 i) ->
  stub_bridge_intf_add ifr fd n1 intf w = stub_bridge_intf_add ifr' fd n2 intf w
  /\ stub_bridge_intf_del ifr fd n1 intf w
     = stub_bridge_intf_del ifr' fd n2 intf w.
Proof.
  intros E. rewrite !stub_bridge_intf_add_run, !stub_bridge_intf_del_run.
  split; by apply resolve_then_request_ext.
Qed.

(** X1.  Attach and detach read the bridge name through its first
    [IFNAMSIZ] bytes as a C string: two names that agree there give the
    same outcome, the same calls and the same world. *)
Theorem bridge_names_collide_on_prefix
    (ifr0 : ifreq) (fd : Z) (n1 n2 intf : list byte) (w : world) :
  take IFNAMSIZ (take (strlen n1) n1) = take IFNAMSIZ (take (strlen n2) n2) ->
  stub_bridge_intf_add ifr0 fd n1 intf w = stub_bridge_intf_add ifr0 fd n2 intf w
  /\ stub_bridge_intf_del ifr0 fd n1 intf w
     = stub_bridge_intf_del ifr0 fd n2 intf w.
Proof.
  intros E. apply intf_stubs_same_record. intros i.
  by apply request_record_prefix.
Qed.

(** X2.  Attach and detach do not see what follows the first zero byte of
    the bridge name: the OCaml string and its part before that byte give the
    same outcome, calls and world. *)
Theorem bridge_name_cut_at_zero_byte
    (ifr0 : ifreq) (fd : Z) (name intf : list byte) (w : world) :
  stub_bridge_intf_add ifr0 fd name intf w
  = stub_bridge_intf_add ifr0 fd (take (strlen name) name) intf w
  /\ stub_bridge_intf_del ifr0 fd name intf w
     = stub_bridge_intf_del ifr0 fd (take (strlen name) name) intf w.
Proof.
  apply intf_stubs_same_record. intros i. apply request_record_prefix.
  rewrite strlen_take_strlen. f_equal.
  rewrite take_take. f_equal. lia.
Qed.

(** X4.  The descriptor reaches the kernel as an [int]: two OCaml integers
    with the same low 32 bits are the same descriptor to all four
    primitives. *)
Theorem descriptor_wraps_to_int
    (ifr0 : ifreq) (fd fd' : Z) (name intf : list byte) :
  fd mod 2 ^ 32 = fd' mod 2 ^ 32 ->
  stub_bridge_add fd name = stub_bridge_add fd' name
  /\ stub_bridge_del fd name = stub_bridge_del fd' name
  /\ stub_bridge_intf_add ifr0 fd name intf
     = stub_bridge_intf_add ifr0 fd' name intf
  /\ stub_bridge_intf_del ifr0 fd name intf
     = stub_bridge_intf_del ifr0 fd' name intf.
Proof.
  intros E. apply to_int_congr in E.
  unfold stub_bridge_add, stub_bridge_del, stub_bridge_intf_add,
    stub_bridge_intf_del, Int_val.
  rewrite E. done.
Qed.

(** X5.  A descriptor that fits in an [int] is the one every [ioctl] of
    the four primitives is issued on. *)
Theorem descriptor_in_range_is_used
    (ifr0 : ifreq) (fd : Z) (name intf : list byte) (m : M unit) (w : world) :
  - 2 ^ 31 <= fd <= INT_MAX ->
  is_operation ifr0 fd name intf m ->
  forall fd' request argp r,
    Sys_ioctl fd' request argp r ∈ issued m w -> fd' = fd.
Proof.
  intros Hrange Hop fd' request argp r Hin.
  destruct (calls_extended ifr0 fd name intf m w Hop) as [_ Hall].
  rewrite Forall_forall in Hall. specialize (Hall _ Hin).
  simpl in Hall. destruct Hall as [-> _].
  unfold Int_val. by apply to_int_id.
Qed.

(** X6.  With a lookup that answers an [unsigned int], attach and detach
    raise [Failure "Device_not_found"] exactly when the answer is zero. *)
Theorem device_not_found_iff_zero
    (ifr0 : ifreq) (fd : Z) (name intf : list byte) (w : world) :
  0 <= (sys_if_nametoindex (kernel w) (String_val intf)).1 <= UINT_MAX ->
  ((stub_bridge_intf_add ifr0 fd name intf w).1
     = Raises (Failure "Device_not_found")
   <-> (sys_if_nametoindex (kernel w) (String_val intf)).1 = 0)
  /\ ((stub_bridge_intf_del ifr0 fd name intf w).1
        = Raises (Failure "Device_not_found")
      <-> (sys_if_nametoindex (kernel w) (String_val intf)).1 = 0).
Proof.
  unfold String_val. intros Hrange.
  assert (forall request label,
    (resolve_then_request request label fd intf (request_record ifr0 name) w).1
      = Raises (Failure "Device_not_found")
    <-> (sys_if_nametoindex (kernel w) intf).1 = 0) as Hboth.
  { intros request label.
    destruct (sys_if_nametoindex (kernel w) intf) as [idx e1] eqn:Hres.
    simpl in *. split.
    - intros Hout. destruct (Z.eq_dec idx 0) as [|Hne]; [done|].
      assert (to_int idx <> 0) as Hnz
        by (apply to_int_unsigned_nonzero; lia).
      destruct (resolve_then_request_nonzero request label fd intf
                  (request_record ifr0 name) w idx e1 Hres Hnz)
        as (r & e & k' & _ & _ & Ho).
      rewrite Ho in Hout. by destruct (r <? 0).
    - intros ->.
      by rewrite (resolve_then_request_zero _ _ _ _ _ _ 0 e1 Hres eq_refl). }
  rewrite stub_bridge_intf_add_run, stub_bridge_intf_del_run.
  split; apply Hboth.
Qed.

(** X7.  Attach and detach use the interface name for the lookup only: two
    names to which the lookup gives the same answer lead to the same
    outcome, the same kernel state, the same [errno] and the same record
    sent. *)
Theorem interface_matters_through_index
    (ifr0 : ifreq) (fd : Z) (name i1 i2 : list byte) (w : world) :
  sys_if_nametoindex (kernel w) (String_val i1)
  = sys_if_nametoindex (kernel w) (String_val i2) ->
  forall m : list byte -> M unit,
    m = stub_bridge_intf_add ifr0 fd name
    \/ m = stub_bridge_intf_del ifr0 fd name ->
    (m i1 w).1 = (m i2 w).1
    /\ kernel (m i1 w).2 = kernel (m i2 w).2
    /\ errno (m i1 w).2 = errno (m i2 w).2
    /\ records_sent (issued (m i1) w) = records_sent (issued (m i2) w).
Proof.
  unfold String_val. intros E m Hm.
  assert (forall request label,
    let f := fun i => resolve_then_request request label fd i
                        (request_record ifr0 name) w in
    (f i1).1 = (f i2).1
    /\ kernel (f i1).2 = kernel (f i2).2
    /\ errno (f i1).2 = errno (f i2).2) as Hboth.
  { intros request label. simpl.
    destruct (sys_if_nametoindex (kernel w) i1) as [idx e1] eqn:H1.
    symmetry in E.
    destruct (Z.eq_dec (to_int idx) 0) as [Hz|Hnz].
    - by rewrite (resolve_then_request_zero _ _ _ i1 _ _ idx e1 H1 Hz),
        (resolve_then_request_zero _ _ _ i2 _ _ idx e1 E Hz).
    - destruct (resolve_then_request_nonzero request label fd i1
                  (request_record ifr0 name) w idx e1 H1 Hnz)
        as (r & e & k' & Hio & Hw & Ho).
      destruct (resolve_then_request_nonzero request label fd i2
                  (request_record ifr0 name) w idx e1 E Hnz)
        as (r' & e' & k'' & Hio' & Hw' & Ho').
      rewrite Hio in Hio'. injection Hio' as <- <- <-.
      by rewrite Ho, Ho', Hw, Hw'. }
  assert (records_sent (issued (m i1) w) = records_sent (issued (m i2) w))
    as Hrec.
  { destruct Hm as [-> | ->];
      rewrite !(records_sent_intf ifr0 fd name _ w) by auto;
      by rewrite E. }
  destruct Hm as [-> | ->].
  - rewrite !stub_bridge_intf_add_run in *.
    destruct (Hboth SIOCBRADDIF "bridge intf add"%string) as (Ho & Hk & He).
    done.
  - rewrite !stub_bridge_intf_del_run in *.
    destruct (Hboth SIOCBRDELIF "bridge intf del"%string) as (Ho & Hk & He).
    done.
Qed.

End Further.

(** ** Attaching and then detaching *)

Section AttachDetach.

Context {Sys : System}.

(** What the kernel says of ports, reading the name field and the index
    field of a record: which descriptors are control sockets, when the
    interface of a record can be made a port of the bridge the record
    names, and when it is one.  An add request on a record that can
    be attached succeeds, attaches it and leaves the answers of the name
    lookup as they were; a remove request on an attached record succeeds
    and detaches it. *)
Variable ctl_socket : kstate -> Z -> Prop.
Variable attachable : kstate -> ifreq -> Prop.
Variable attached : kstate -> ifreq -> Prop.

Hypothesis attach_contract :
  forall k fd rec,
    ctl_socket k fd -> attachable k rec ->
    exists r e k',
      sys_ioctl k fd SIOCBRADDIF (Arg_ifreq rec) = (r, e, k')
      /\ 0 <= r /\ ctl_socket k' fd /\ attached k' rec
      /\ forall n, (sys_if_nametoindex k' n).1 = (sys_if_nametoindex k n).1.

Hypothesis detach_contract :
  forall k fd rec,
    ctl_socket k fd -> attached k rec ->
    exists r e k',
      sys_ioctl k fd SIOCBRDELIF (Arg_ifreq rec) = (r, e, k')
      /\ 0 <= r /\ ~ attached k' rec.

(** X8.  On such a kernel, when the interface name resolves and its record
    can be attached, attach returns and the record is attached; detach with
    the same names then returns and the record is attached no more: detach
    gives the kernel the name field and the index that attach gave it.  The
    contracts speak of the name field and the index field of the record,
    the two members modelled; the other bytes of [struct ifreq] are not. *)
Theorem attach_then_detach
    (ifr0 ifr1 : ifreq) (fd : Z) (name intf : list byte) (w : world)
    (idx : Z) (e1 : option Z) :
  length (ifr_name ifr0) = IFNAMSIZ ->
  length (ifr_name ifr1) = IFNAMSIZ ->
  sys_if_nametoindex (kernel w) (String_val intf) = (idx, e1) ->
  to_int idx <> 0 ->
  ctl_socket (kernel w) (Int_val fd) ->
  attachable (kernel w)
    {| ifr_name := contract_name_field name; ifr_ifindex := to_int idx |} ->
  (stub_bridge_intf_add ifr0 fd name intf w).1 = Returns tt
  /\ attached (kernel (stub_bridge_intf_add ifr0 fd name intf w).2)
       {| ifr_name := contract_name_field name; ifr_ifindex := to_int idx |}
  /\ (stub_bridge_intf_del ifr1 fd name intf
        (stub_bridge_intf_add ifr0 fd name intf w).2).1 = Returns tt
  /\ ~ attached
         (kernel (stub_bridge_intf_del ifr1 fd name intf
                    (stub_bridge_intf_add ifr0 fd name intf w).2).2)
         {| ifr_name := contract_name_field name; ifr_ifindex := to_int idx |}.
Proof.
  unfold String_val, Int_val. intros H0 H1 Hres Hnz Hsock Hcan.
  destruct (attach_contract _ _ _ Hsock Hcan)
    as (r & e & k1 & Hio & Hr & Hsock1 & Hin & Hstable).
  rewrite stub_bridge_intf_add_run.
  destruct (resolve_then_request_nonzero SIOCBRADDIF "bridge intf add" fd intf
              (request_record ifr0 name) w idx e1 Hres Hnz)
    as (r' & e' & k' & Hio' & Hw & Ho).
  rewrite (request_record_contract ifr0 name _ H0) in Hio'.
  rewrite Hio in Hio'. injection Hio' as <- <- <-.
  rewrite Ho, Hw. destruct (Z.ltb_spec r 0) as [|_]; [lia|].
  split; [done|]. split; [done|].
  rewrite stub_bridge_intf_del_run.
  destruct (detach_contract _ _ _ Hsock1 Hin)
    as (r2 & e2 & k2 & Hio2 & Hr2 & Hout).
  match goal with
  | |- context [resolve_then_request SIOCBRDELIF ?l fd intf ?f ?w1] =>
      destruct (sys_if_nametoindex (kernel w1) intf) as [idx' e1'] eqn:Hres';
      pose proof (Hstable intf) as Hsame; simpl in Hres';
      rewrite Hres', Hres in Hsame; simpl in Hsame; subst idx';
      destruct (resolve_then_request_nonzero SIOCBRDELIF l fd intf f w1
                  idx e1' Hres' Hnz) as (r3 & e3 & k3 & Hio3 & Hw3 & Ho3)
  end.
  rewrite (request_record_contract ifr1 name _ H1) in Hio3.
  simpl in Hio3. rewrite Hio2 in Hio3. injection Hio3 as <- <- <-.
  rewrite Ho3, Hw3. destruct (Z.ltb_spec r2 0) as [|_]; [lia|]. done.
Qed.

End AttachDetach.

Module RefKernelPorts.

Import RefKernel.

Lemma attach_succeeds (k : state) (fd : Z) (rec : ifreq) :
  sock_open k fd -> attachable k rec ->
  exists r e k',
    do_ioctl k fd SIOCBRADDIF (Arg_ifreq rec) = (r, e, k')
    /\ 0 <= r /\ sock_open k' fd /\ attached k' rec
    /\ forall n, (nametoindex k' n).1 = (nametoindex k n).1.
Proof.
  unfold sock_open, attachable, attached.
  intros Hsock ([ports Hbr] & Hidx & Hport).
  unfold do_ioctl. rewrite Hsock. simpl. rewrite Hbr, Hidx, Hport. simpl.
  eexists _, _, _. split; [done|]. split; [done|]. split; [done|]. split.
  - exists (ports ++ [ifr_ifindex rec]). simpl.
    rewrite RefKernelFacts.same_name_refl. split; [done|].
    apply elem_of_app. right. by apply list_elem_of_singleton.
  - done.
Qed.

Lemma detach_succeeds (k : state) (fd : Z) (rec : ifreq) :
  sock_open k fd -> attached k rec ->
  exists r e k',
    do_ioctl k fd SIOCBRDELIF (Arg_ifreq rec) = (r, e, k')
    /\ 0 <= r /\ ~ attached k' rec.
Proof.
  unfold sock_open, attached. intros Hsock (ports & Hbr & Hin).
  unfold do_ioctl. rewrite Hsock. simpl. rewrite Hbr.
  rewrite bool_decide_eq_true_2 by done.
  eexists _, _, _. split; [done|]. split; [done|].
  intros (ports' & Hbr' & Hin'). simpl in Hbr'.
  rewrite RefKernelFacts.same_name_refl in Hbr'. injection Hbr' as <-.
  apply list_elem_of_filter in Hin' as [Hne _]. done.
Qed.

End RefKernelPorts.

Section FurtherOnRefKernel.

Import RefKernel.

#[local] Existing Instance system.

Lemma bridge_names_collide_on_prefix_witness :
  take IFNAMSIZ (take (strlen long_name) long_name)
  = take IFNAMSIZ (take (strlen long_name_cut) long_name_cut)
  /\ long_name <> long_name_cut
  /\ stub_bridge_intf_add stack_garbage 3 long_name eth_test0 boot
     = stub_bridge_intf_add stack_garbage 3 long_name_cut eth_test0 boot.
Proof.
  split; [reflexivity|]. split; [discriminate|].
  exact (proj1 (bridge_names_collide_on_prefix stack_garbage 3 long_name
                  long_name_cut eth_test0 boot eq_refl)).
Defined.

Lemma descriptor_wraps_to_int_witness :
  stub_bridge_add 4294967299 testbr0 = stub_bridge_add 3 testbr0
  /\ (stub_bridge_add 4294967299 testbr0 boot).1 = Returns tt.
Proof.
  split; [|reflexivity].
  exact (proj1 (descriptor_wraps_to_int stack_garbage 4294967299 3 testbr0
                  eth_test0 eq_refl)).
Defined.

Lemma descriptor_in_range_is_used_witness :
  - 2 ^ 31 <= 3 <= INT_MAX
  /\ Forall (fun c =>
               match c with
               | Sys_ioctl fd' _ _ _ => fd' = 3
               | Sys_if_nametoindex _ _ => True
               end)
       (issued (stub_bridge_intf_add stack_garbage 3 testbr0 eth_test0)
          bridged).
Proof.
  assert (- 2 ^ 31 <= 3 <= INT_MAX) as Hrange by (unfold INT_MAX; lia).
  split; [exact Hrange|].
  apply Forall_forall. intros [p i|fd' request argp r] Hin; [exact I|].
  apply (descriptor_in_range_is_used stack_garbage 3 testbr0 eth_test0
           _ bridged Hrange (or_intror (or_intror (or_introl eq_refl)))
           fd' request argp r Hin).
Defined.

Lemma device_not_found_iff_zero_witness :
  (stub_bridge_intf_add stack_garbage 3 testbr0 eth_test0 bridged).1
  <> Raises (Failure "Device_not_found")
  /\ (stub_bridge_intf_add stack_garbage 3 testbr0 nosuch_iface bridged).1
     = Raises (Failure "Device_not_found").
Proof.
  split.
  - intros Hout.
    apply (device_not_found_iff_zero stack_garbage 3 testbr0 eth_test0 bridged)
      in Hout; [discriminate|].
    vm_compute. split; discriminate.
  - apply (device_not_found_iff_zero stack_garbage 3 testbr0 nosuch_iface
             bridged); [|reflexivity].
    vm_compute. split; discriminate.
Defined.

Lemma interface_matters_through_index_witness :
  eth_test0 <> eth_test0_alias
  /\ (stub_bridge_intf_add stack_garbage 3 testbr0 eth_test0 bridged).1
     = (stub_bridge_intf_add stack_garbage 3 testbr0 eth_test0_alias bridged).1
  /\ kernel (stub_bridge_intf_add stack_garbage 3 testbr0 eth_test0 bridged).2
     = kernel
         (stub_bridge_intf_add stack_garbage 3 testbr0 eth_test0_alias
            bridged).2.
Proof.
  split; [discriminate|].
  destruct (interface_matters_through_index stack_garbage 3 testbr0
              eth_test0 eth_test0_alias bridged eq_refl
              (stub_bridge_intf_add stack_garbage 3 testbr0)
              (or_introl eq_refl)) as (Ho & Hk & _).
  split; [exact Ho|exact Hk].
Defined.

Lemma attach_then_detach_witness :
  (stub_bridge_intf_add stack_garbage 3 testbr0 eth_test0 bridged).1
  = Returns tt
  /\ (stub_bridge_intf_del stack_zeros 3 testbr0 eth_test0
        (stub_bridge_intf_add stack_garbage 3 testbr0 eth_test0 bridged).2).1
     = Returns tt
  /\ ~ attached
         (kernel
            (stub_bridge_intf_del stack_zeros 3 testbr0 eth_test0
               (stub_bridge_intf_add stack_garbage 3 testbr0 eth_test0
                  bridged).2).2)
         {| ifr_name := contract_name_field testbr0; ifr_ifindex := to_int 2 |}.
Proof.
  assert (to_int 2 <> 0) as Hnz by (vm_compute; discriminate).
  assert (attachable (kernel bridged)
            {| ifr_name := contract_name_field testbr0;
               ifr_ifindex := to_int 2 |}) as Hcan.
  { split; [eexists; reflexivity|]. split; reflexivity. }
  destruct (attach_then_detach (Sys := system) sock_open attachable attached
              RefKernelPorts.attach_succeeds RefKernelPorts.detach_succeeds
              stack_garbage stack_zeros 3 testbr0 eth_test0 bridged 2 None
              eq_refl eq_refl eq_refl Hnz eq_refl Hcan)
    as (Hadd & _ & Hdel & Hout).
  split; [exact Hadd|]. split; [exact Hdel|exact Hout].
Defined.

End FurtherOnRefKernel.

(** ** The caller's descriptor and strings *)

Section OwnedFacts.

Context {Sys : System}.




End OwnedFacts.

Section OwnedOnRefKernel.

Import RefKernel.

#[local] Existing Instance system.

(** What the stubs keep, other programs of this model do not: closing the
    descriptor empties the table, and a copy into a string of the caller
    changes it. *)
Example close_changes_the_table :
  Owned.fds (Owned.close 3 Owned.home).2 = []
  /\ Owned.fds Owned.home = [3].
Proof. split; reflexivity. Qed.

Example copy_changes_the_string :
  Owned.heap
    (Owned.strncpy (Owned.String_val 0) (Owned.String_val 1) 3 Owned.home).2
  = [list_byte_of_string "ethtbr0"; eth_test0]
  /\ Owned.heap Owned.home = [testbr0; eth_test0].
Proof. split; reflexivity. Qed.


End OwnedOnRefKernel.
